(** * LivenessChecker: blink / head-turn liveness session

    A shallow embedding of the later ("race-proof pass") revision of the
    [LivenessChecker] React component and of the decision logic in its
    [onResults] callback, [resetSession] and its effects.

    Numbers: JavaScript numbers (EAR and yaw ratios, millisecond clock
    readings) are modelled as rationals [Q]; there is no NaN and no rounding
    of the arithmetic.  Counters are [nat].

    React: [useState] values live in [State], [useRef] cells in [Refs].
    A callback reads the [useState] values of the render that created it
    (its closure) and the current contents of the refs; a setter call only
    schedules the next committed value.  [onResults] therefore takes the
    captured render [rd] as an argument of its own, distinct from the session
    it updates.  [step] leaves [rd] open.  The callback FaceMesh calls is
    registered by [fm.onResults(onResults)] in [start] and nowhere else;
    [start] is memoised on [resetSession], itself memoised on no dependency,
    so the [start] that runs, also from [handleReset], is the first render's
    and the [onResults] it names is the first render's as well, whatever the
    dependency list of [onResults] rebuilds afterwards.  [processFrame]
    therefore hands the callback [firstRender], the [useState] values of the
    mount; the refs it reads are the current ones.  Results that do not
    depend on the captured render are stated for every [rd]. *)

From Stdlib Require Import QArith Qabs Qround Lqa Lia List Bool String ZArith.
Import ListNotations.
Open Scope Q_scope.

(** ** JavaScript operators on numbers and nullable values *)

(** [a >= b] *)
Definition Qgeb (a b : Q) : bool := Qle_bool b a.

(** [a < b] *)
Definition Qltb (a b : Q) : bool := negb (Qle_bool b a).

(** [a > b] *)
Definition Qgtb (a b : Q) : bool := negb (Qle_bool a b).

(** [x ?? d] *)
Definition nullish {A : Type} (x : option A) (d : A) : A :=
  match x with Some v => v | None => d end.

(** [!!x] for an object or a non-empty string, or null *)
Definition truthy {A : Type} (x : option A) : bool :=
  match x with Some _ => true | None => false end.

(** [Number(x.toFixed(3))]: the nearest multiple of 1/1000, a tie going to
    the larger magnitude. *)
Definition toFixed3 (x : Q) : Q :=
  let r (y : Q) := inject_Z (Qfloor (y * 1000 + (1 # 2))) / 1000 in
  if Qltb x 0 then - r (- x) else r x.

(** ** ../lib/geometry *)

Module Geometry.

(** Modelled from the spec: [ema] is imported from ../lib/geometry, which is
    not among the sources.  Section 4.1: if [previous] is absent the result
    is [sample] unchanged, otherwise [alpha*sample + (1-alpha)*previous]. *)
Definition ema (previous : option Q) (sample alpha : Q) : Q :=
  match previous with
  | None => sample
  | Some prev => alpha * sample + (1 - alpha) * prev
  end.

End Geometry.

Import Geometry.

(** ** Component state *)

Inductive Direction : Type := Left | Right.

(** The props of [LivenessChecker] ([onChange] is the observer). *)
Record Props : Type := mkProps {
  sessionWindowMs : Q;
  earThreshold : Q;
  earCloseMinMs : Q;
  yawAbsThreshold : Q;
  yawHoldMinMs : Q
}.

Definition defaultProps : Props :=
  {| sessionWindowMs := 8000; earThreshold := 0.18; earCloseMinMs := 120;
     yawAbsThreshold := 0.55; yawHoldMinMs := 250 |}.

(** The [useState] values. *)
Record State : Type := mkState {
  isRunning : bool;
  permissionError : option string;
  blinkCount : nat;
  turnDetected : option Direction;
  livenessPassed : bool;
  leftEAR : Q;
  rightEAR : Q;
  yawDev : Q;
  turnedLeft : bool;
  turnedRight : bool
}.

(** The [useRef] cells ([.current]). *)
Record Refs : Type := mkRefs {
  startedAtRef : option Q;
  earLeftEMARef : option Q;
  earRightEMARef : option Q;
  eyesClosedSinceRef : option Q;
  eyesWereClosedRef : bool;
  lastBlinkAtRef : Q;
  yawEMARef : option Q;
  yawBeyondSinceRef : option Q;
  frameCountRef : nat;
  lastFacePresentRef : bool;
  blinkCountRef : nat
}.

Record Session : Type := mkSession {
  state : State;
  refs : Refs
}.

(** The initial values given to [useState] and [useRef]. *)
Definition mount : Session :=
  {| state := {| isRunning := false; permissionError := None; blinkCount := 0%nat;
                 turnDetected := None; livenessPassed := false;
                 leftEAR := 0; rightEAR := 0; yawDev := 0;
                 turnedLeft := false; turnedRight := false |};
     refs := {| startedAtRef := None; earLeftEMARef := None; earRightEMARef := None;
                eyesClosedSinceRef := None; eyesWereClosedRef := false;
                lastBlinkAtRef := 0; yawEMARef := None; yawBeyondSinceRef := None;
                frameCountRef := 0%nat; lastFacePresentRef := false;
                blinkCountRef := 0%nat |} |}.

(** *** Setters *)

Definition setIsRunning (v : bool) (t : State) : State :=
  mkState v (permissionError t) (blinkCount t) (turnDetected t) (livenessPassed t)
          (leftEAR t) (rightEAR t) (yawDev t) (turnedLeft t) (turnedRight t).
Definition setPermissionError (v : option string) (t : State) : State :=
  mkState (isRunning t) v (blinkCount t) (turnDetected t) (livenessPassed t)
          (leftEAR t) (rightEAR t) (yawDev t) (turnedLeft t) (turnedRight t).
Definition setBlinkCount (v : nat) (t : State) : State :=
  mkState (isRunning t) (permissionError t) v (turnDetected t) (livenessPassed t)
          (leftEAR t) (rightEAR t) (yawDev t) (turnedLeft t) (turnedRight t).
Definition setTurnDetected (v : option Direction) (t : State) : State :=
  mkState (isRunning t) (permissionError t) (blinkCount t) v (livenessPassed t)
          (leftEAR t) (rightEAR t) (yawDev t) (turnedLeft t) (turnedRight t).
Definition setLivenessPassed (v : bool) (t : State) : State :=
  mkState (isRunning t) (permissionError t) (blinkCount t) (turnDetected t) v
          (leftEAR t) (rightEAR t) (yawDev t) (turnedLeft t) (turnedRight t).
Definition setLeftEAR (v : Q) (t : State) : State :=
  mkState (isRunning t) (permissionError t) (blinkCount t) (turnDetected t) (livenessPassed t)
          v (rightEAR t) (yawDev t) (turnedLeft t) (turnedRight t).
Definition setRightEAR (v : Q) (t : State) : State :=
  mkState (isRunning t) (permissionError t) (blinkCount t) (turnDetected t) (livenessPassed t)
          (leftEAR t) v (yawDev t) (turnedLeft t) (turnedRight t).
Definition setYawDev (v : Q) (t : State) : State :=
  mkState (isRunning t) (permissionError t) (blinkCount t) (turnDetected t) (livenessPassed t)
          (leftEAR t) (rightEAR t) v (turnedLeft t) (turnedRight t).
Definition setTurnedLeft (v : bool) (t : State) : State :=
  mkState (isRunning t) (permissionError t) (blinkCount t) (turnDetected t) (livenessPassed t)
          (leftEAR t) (rightEAR t) (yawDev t) v (turnedRight t).
Definition setTurnedRight (v : bool) (t : State) : State :=
  mkState (isRunning t) (permissionError t) (blinkCount t) (turnDetected t) (livenessPassed t)
          (leftEAR t) (rightEAR t) (yawDev t) (turnedLeft t) v.

Definition put_startedAtRef (v : option Q) (r : Refs) : Refs :=
  mkRefs v (earLeftEMARef r) (earRightEMARef r) (eyesClosedSinceRef r) (eyesWereClosedRef r)
         (lastBlinkAtRef r) (yawEMARef r) (yawBeyondSinceRef r) (frameCountRef r)
         (lastFacePresentRef r) (blinkCountRef r).
Definition put_earLeftEMARef (v : option Q) (r : Refs) : Refs :=
  mkRefs (startedAtRef r) v (earRightEMARef r) (eyesClosedSinceRef r) (eyesWereClosedRef r)
         (lastBlinkAtRef r) (yawEMARef r) (yawBeyondSinceRef r) (frameCountRef r)
         (lastFacePresentRef r) (blinkCountRef r).
Definition put_earRightEMARef (v : option Q) (r : Refs) : Refs :=
  mkRefs (startedAtRef r) (earLeftEMARef r) v (eyesClosedSinceRef r) (eyesWereClosedRef r)
         (lastBlinkAtRef r) (yawEMARef r) (yawBeyondSinceRef r) (frameCountRef r)
         (lastFacePresentRef r) (blinkCountRef r).
Definition put_eyesClosedSinceRef (v : option Q) (r : Refs) : Refs :=
  mkRefs (startedAtRef r) (earLeftEMARef r) (earRightEMARef r) v (eyesWereClosedRef r)
         (lastBlinkAtRef r) (yawEMARef r) (yawBeyondSinceRef r) (frameCountRef r)
         (lastFacePresentRef r) (blinkCountRef r).
Definition put_eyesWereClosedRef (v : bool) (r : Refs) : Refs :=
  mkRefs (startedAtRef r) (earLeftEMARef r) (earRightEMARef r) (eyesClosedSinceRef r) v
         (lastBlinkAtRef r) (yawEMARef r) (yawBeyondSinceRef r) (frameCountRef r)
         (lastFacePresentRef r) (blinkCountRef r).
Definition put_lastBlinkAtRef (v : Q) (r : Refs) : Refs :=
  mkRefs (startedAtRef r) (earLeftEMARef r) (earRightEMARef r) (eyesClosedSinceRef r)
         (eyesWereClosedRef r) v (yawEMARef r) (yawBeyondSinceRef r) (frameCountRef r)
         (lastFacePresentRef r) (blinkCountRef r).
Definition put_yawEMARef (v : option Q) (r : Refs) : Refs :=
  mkRefs (startedAtRef r) (earLeftEMARef r) (earRightEMARef r) (eyesClosedSinceRef r)
         (eyesWereClosedRef r) (lastBlinkAtRef r) v (yawBeyondSinceRef r) (frameCountRef r)
         (lastFacePresentRef r) (blinkCountRef r).
Definition put_yawBeyondSinceRef (v : option Q) (r : Refs) : Refs :=
  mkRefs (startedAtRef r) (earLeftEMARef r) (earRightEMARef r) (eyesClosedSinceRef r)
         (eyesWereClosedRef r) (lastBlinkAtRef r) (yawEMARef r) v (frameCountRef r)
         (lastFacePresentRef r) (blinkCountRef r).
Definition put_frameCountRef (v : nat) (r : Refs) : Refs :=
  mkRefs (startedAtRef r) (earLeftEMARef r) (earRightEMARef r) (eyesClosedSinceRef r)
         (eyesWereClosedRef r) (lastBlinkAtRef r) (yawEMARef r) (yawBeyondSinceRef r) v
         (lastFacePresentRef r) (blinkCountRef r).
Definition put_lastFacePresentRef (v : bool) (r : Refs) : Refs :=
  mkRefs (startedAtRef r) (earLeftEMARef r) (earRightEMARef r) (eyesClosedSinceRef r)
         (eyesWereClosedRef r) (lastBlinkAtRef r) (yawEMARef r) (yawBeyondSinceRef r)
         (frameCountRef r) v (blinkCountRef r).
Definition put_blinkCountRef (v : nat) (r : Refs) : Refs :=
  mkRefs (startedAtRef r) (earLeftEMARef r) (earRightEMARef r) (eyesClosedSinceRef r)
         (eyesWereClosedRef r) (lastBlinkAtRef r) (yawEMARef r) (yawBeyondSinceRef r)
         (frameCountRef r) (lastFacePresentRef r) v.

(** A setter call: the next committed [State]. *)
Definition setState (f : State -> State) (s : Session) : Session :=
  {| state := f (state s); refs := refs s |}.

(** An assignment to a ref's [.current]. *)
Definition assign (f : Refs -> Refs) (s : Session) : Session :=
  {| state := state s; refs := f (refs s) |}.

(** ** The geometry extractors

    [earFromLandmarks] and [yawProxy] are imported from ../lib/geometry,
    which is not among the sources: the component is modelled over any
    implementation of them.  [None] stands for a raised exception (a landmark
    set that lacks a point the extractor reads). *)

Class GeometryLib : Type := {
  Landmarks : Type;
  earFromLandmarks : Landmarks -> nat -> nat -> nat -> nat -> option Q;
  yawProxy : Landmarks -> option Q
}.

(** ** The component *)

Section LivenessChecker.

Context {G : GeometryLib}.

(** [resetSession]; [dateNow] is the reading of [Date.now()]. *)
Definition resetSession (dateNow : Q) (s : Session) : Session :=
  let s := setState (setBlinkCount 0%nat) s in
  let s := assign (put_blinkCountRef 0%nat) s in
  let s := setState (setTurnDetected None) s in
  let s := setState (setTurnedLeft false) s in
  let s := setState (setTurnedRight false) s in
  let s := setState (setLivenessPassed false) s in
  let s := setState (setPermissionError None) s in
  let s := setState (setLeftEAR 0) s in
  let s := setState (setRightEAR 0) s in
  let s := setState (setYawDev 0) s in
  let s := assign (put_earLeftEMARef None) s in
  let s := assign (put_earRightEMARef None) s in
  let s := assign (put_eyesClosedSinceRef None) s in
  let s := assign (put_eyesWereClosedRef false) s in
  let s := assign (put_lastBlinkAtRef 0) s in
  let s := assign (put_yawEMARef None) s in
  let s := assign (put_yawBeyondSinceRef None) s in
  let s := assign (put_startedAtRef (Some dateNow)) s in
  let s := assign (put_frameCountRef 0%nat) s in
  assign (put_lastFacePresentRef false) s.

(** [start], up to the acquisition of the camera: [failure] is the
    message of the error caught there, if any. *)
Definition start (dateNow : Q) (failure : option string) (s : Session) : Session :=
  let s := resetSession dateNow s in
  let s := setState (setIsRunning true) s in
  match failure with
  | None => s
  | Some message =>
      let s := setState (setPermissionError (Some message)) s in
      setState (setIsRunning false) s
  end.

(** [stop], as far as the session goes. *)
Definition stop (s : Session) : Session := setState (setIsRunning false) s.

(** [updateDebug] *)
Definition updateDebug (lEAR rEAR yaw : Q) (s : Session) : Session :=
  let s := setState (setLeftEAR (toFixed3 lEAR)) s in
  let s := setState (setRightEAR (toFixed3 rEAR)) s in
  setState (setYawDev (toFixed3 yaw)) s.

(** [onResults], the part under "EAR (blink) with EMA + hysteresis +
    refractory" that follows the smoothing: the session and
    [nextBlinkCount]. *)
Definition onResults_blink (p : Props) (rd : State) (now earAvg : Q) (s : Session)
  : Session * nat :=
  let closeTh := earThreshold p in
  let openTh := earThreshold p + 0.03 in
  let eyesClosed :=
    if eyesWereClosedRef (refs s) then Qltb earAvg openTh else Qltb earAvg closeTh in
  let nextBlinkCount := blinkCount rd in
  if eyesClosed then
    if negb (eyesWereClosedRef (refs s)) then
      let s := assign (put_eyesWereClosedRef true) s in
      let s := assign (put_eyesClosedSinceRef (Some now)) s in
      (s, nextBlinkCount)
    else (s, nextBlinkCount)
  else if eyesWereClosedRef (refs s) then
    let closedMs := now - nullish (eyesClosedSinceRef (refs s)) now in
    let s := assign (put_eyesWereClosedRef false) s in
    let s := assign (put_eyesClosedSinceRef None) s in
    if Qgeb closedMs (earCloseMinMs p) then
      let refractoryMs := 250 in
      if Qgeb (now - lastBlinkAtRef (refs s)) refractoryMs then
        let newCount := (blinkCountRef (refs s) + 1)%nat in
        let s := setState (setBlinkCount newCount) s in
        let s := assign (put_blinkCountRef newCount) s in
        let s := assign (put_lastBlinkAtRef now) s in
        (s, newCount)
      else (s, nextBlinkCount)
    else (s, nextBlinkCount)
  else (s, nextBlinkCount).

(** The hold branch of the turn detector: [held >= yawHoldMinMs]. *)
Definition onResults_turn (rd : State) (yawSm : Q) (nextBlinkCount : nat) (s : Session)
  : Session :=
  let dir := if Qgtb yawSm 0 then Right else Left in
  let s := if negb (truthy (turnDetected rd))
           then setState (setTurnDetected (Some dir)) s else s in
  let s := match dir with Left => setState (setTurnedLeft true) s | Right => s end in
  let s := match dir with Right => setState (setTurnedRight true) s | Left => s end in
  let nextLeft := match dir with Left => true | Right => turnedLeft rd end in
  let nextRight := match dir with Right => true | Left => turnedRight rd end in
  if negb (livenessPassed rd) && nextLeft && nextRight && (2 <=? nextBlinkCount)%nat
  then setState (setLivenessPassed true) s
  else s.

(** [onResults], the part under "Yaw (turn) with EMA + hold" that follows
    the smoothing.  [!yawBeyondSinceRef.current] holds of null and of the
    number 0. *)
Definition onResults_yaw (p : Props) (rd : State) (now yawSm : Q) (nextBlinkCount : nat)
    (s : Session) : Session :=
  let beyond := Qgeb (Qabs yawSm) (yawAbsThreshold p) in
  if beyond then
    match yawBeyondSinceRef (refs s) with
    | None => assign (put_yawBeyondSinceRef (Some now)) s
    | Some since =>
        if Qeq_bool since 0 then assign (put_yawBeyondSinceRef (Some now)) s
        else
          let held := now - since in
          if Qgeb held (yawHoldMinMs p)
          then onResults_turn rd yawSm nextBlinkCount s
          else s
    end
  else assign (put_yawBeyondSinceRef None) s.

(** [onResults], "frame-local decisive check"; [nextTurnDetected] is
    [turnDetected] as captured, it is never assigned again. *)
Definition onResults_check (rd : State) (nextBlinkCount : nat) (s : Session) : Session :=
  let nextTurnDetected := turnDetected rd in
  if negb (livenessPassed rd) && (2 <=? nextBlinkCount)%nat && truthy nextTurnDetected
  then setState (setLivenessPassed true) s
  else s.

(** [onResults]: [rd] is the render captured by the callback, [lm0] is
    [results.multiFaceLandmarks?.[0]], [now] the reading of
    [performance.now()].  Drawing and logging are left out.  An exception
    raised by an extractor ends the [try] block: what was assigned before it
    stays, what follows is skipped. *)
Definition onResults (p : Props) (rd : State) (lm0 : option Landmarks) (now : Q)
    (s : Session) : Session :=
  let s := assign (put_frameCountRef (frameCountRef (refs s) + 1)%nat) s in
  let facePresent := truthy lm0 in
  let s := assign (put_lastFacePresentRef facePresent) s in
  match lm0 with
  | None =>
      let s := assign (put_eyesClosedSinceRef None) s in
      let s := assign (put_yawBeyondSinceRef None) s in
      updateDebug 0 0 0 s
  | Some lm =>
      match earFromLandmarks lm 159 145 33 133 with
      | None => s
      | Some earL =>
      match earFromLandmarks lm 386 374 263 362 with
      | None => s
      | Some earR =>
          let s := assign (put_earLeftEMARef
                             (Some (ema (earLeftEMARef (refs s)) earL 0.35))) s in
          let s := assign (put_earRightEMARef
                             (Some (ema (earRightEMARef (refs s)) earR 0.35))) s in
          let lSm := nullish (earLeftEMARef (refs s)) earL in
          let rSm := nullish (earRightEMARef (refs s)) earR in
          let earAvg := (lSm + rSm) / 2 in
          let '(s, nextBlinkCount) := onResults_blink p rd now earAvg s in
          match yawProxy lm with
          | None => s
          | Some yawRaw =>
              let s := assign (put_yawEMARef
                                 (Some (ema (yawEMARef (refs s)) yawRaw 0.25))) s in
              let yawSm := nullish (yawEMARef (refs s)) yawRaw in
              let s := onResults_yaw p rd now yawSm nextBlinkCount s in
              let s := updateDebug lSm rSm yawSm s in
              onResults_check rd nextBlinkCount s
          end
      end
      end
  end.

(** The "final guard" effect. *)
Definition finalGuard (s : Session) : Session :=
  let t := state s in
  if negb (livenessPassed t) && turnedLeft t && turnedRight t && (2 <=? blinkCount t)%nat
  then setState (setLivenessPassed true) s
  else s.

(** The effect that copies [blinkCount] into [blinkCountRef]. *)
Definition syncBlinkCountRef (s : Session) : Session :=
  assign (put_blinkCountRef (blinkCount (state s))) s.

(** The effects that follow a commit, in the order of their declaration.
    The commit caused by the guard runs them once more, to no effect. *)
Definition runEffects (s : Session) : Session :=
  syncBlinkCountRef (finalGuard s).

(** One frame: the callback, then the commit and its effects. *)
Definition step (p : Props) (rd : State) (lm0 : option Landmarks) (now : Q)
    (s : Session) : Session :=
  runEffects (onResults p rd lm0 now s).

(** The render whose [onResults] is registered with FaceMesh: the first
    one, which holds the initial [useState] values. *)
Definition firstRender : State := state mount.

(** One frame as the component receives it: the callback is the first
    render's. *)
Definition processFrame (p : Props) (lm0 : option Landmarks) (now : Q) (s : Session)
  : Session :=
  step p firstRender lm0 now s.

(** A frame as delivered: the captured render, the landmark set, the clock. *)
Definition Event : Type := (State * option Landmarks * Q)%type.

Fixpoint run (p : Props) (evs : list Event) (s : Session) : Session :=
  match evs with
  | [] => s
  | (rd, lm0, now) :: evs' => run p evs' (step p rd lm0 now s)
  end.

Fixpoint processFrames (p : Props) (fs : list (option Landmarks * Q)) (s : Session)
  : Session :=
  match fs with
  | [] => s
  | (lm0, now) :: fs' => processFrames p fs' (processFrame p lm0 now s)
  end.

(** The events of [processFrames]: each frame with the first render. *)
Fixpoint eventsOf (fs : list (option Landmarks * Q)) : list Event :=
  match fs with
  | [] => []
  | (lm0, now) :: fs' => (firstRender, lm0, now) :: eventsOf fs'
  end.

(** The payload handed to [onChange]. *)
Record Snapshot : Type := mkSnapshot {
  snap_livenessPassed : bool;
  snap_blinkCount : nat;
  snap_turnDetected : option Direction;
  snap_turnedLeft : bool;
  snap_turnedRight : bool;
  snap_leftEAR : Q;
  snap_rightEAR : Q;
  snap_yawDev : Q;
  snap_sessionStartedAt : option Q
}.

Definition snapshot (s : Session) : Snapshot :=
  let t := state s in
  mkSnapshot (livenessPassed t) (blinkCount t) (turnDetected t) (turnedLeft t)
             (turnedRight t) (leftEAR t) (rightEAR t) (yawDev t) (startedAtRef (refs s)).

(** The smoothed signals of a frame whose extractors returned [earL],
    [earR] and [yawRaw]. *)
Definition smoothedLeft (s : Session) (earL : Q) : Q :=
  ema (earLeftEMARef (refs s)) earL 0.35.
Definition smoothedRight (s : Session) (earR : Q) : Q :=
  ema (earRightEMARef (refs s)) earR 0.35.
Definition earAvgOf (s : Session) (earL earR : Q) : Q :=
  (smoothedLeft s earL + smoothedRight s earR) / 2.
Definition smoothedYaw (s : Session) (yawRaw : Q) : Q :=
  ema (yawEMARef (refs s)) yawRaw 0.25.

(** [onResults] on a face, the session reached when both EAR smoothers
    have been updated. *)
Definition smoothedEars (s : Session) (earL earR : Q) : Session :=
  assign (put_earRightEMARef (Some (smoothedRight s earR)))
    (assign (put_earLeftEMARef (Some (smoothedLeft s earL)))
       (assign (put_lastFacePresentRef true)
          (assign (put_frameCountRef (frameCountRef (refs s) + 1)%nat) s))).

(** The turn detector's state inside a session. *)
Record TurnState : Type := mkTurnState {
  beyondSinceTimestamp : option Q;
  lastDirection : option Direction;
  turnedLeftEver : bool;
  turnedRightEver : bool
}.

Definition turnStateOf (s : Session) : TurnState :=
  mkTurnState (yawBeyondSinceRef (refs s)) (turnDetected (state s))
              (turnedLeft (state s)) (turnedRight (state s)).

(** The effects have run: this holds after every frame and after a reset
    has been committed. *)
Definition settled (s : Session) : Prop := runEffects s = s.

(** A landmark set on which one of the extractors raises. *)
Definition earFails (lm : Landmarks) : Prop :=
  earFromLandmarks lm 159 145 33 133 = None \/
  earFromLandmarks lm 386 374 263 362 = None.

Definition malformed (lm : Landmarks) : Prop :=
  earFails lm \/ yawProxy lm = None.

(** ** The blink detector as section 4.2 words it

    [specBlink] follows the specification, with [margin] and [refractoryMs]
    taken from a configuration; it is compared with [onResults] below.  Where
    the specification is silent (a closed detector without a recorded start)
    the closure has length zero. *)

Record BlinkConfig : Type := mkBlinkConfig {
  closeThreshold : Q;
  margin : Q;
  minCloseDurationMs : Q;
  refractoryMs : Q
}.

Record BlinkState : Type := mkBlinkState {
  isClosed : bool;
  closedSinceTimestamp : option Q;
  lastBlinkTimestamp : option Q;
  blinkCountOf : nat
}.

Definition specBlink (c : BlinkConfig) (now earAvg : Q) (b : BlinkState) : BlinkState :=
  let openThreshold := closeThreshold c + margin c in
  if isClosed b then
    if Qgeb earAvg openThreshold then
      let closedDurationMs := now - nullish (closedSinceTimestamp b) now in
      let refractoryOver :=
        match lastBlinkTimestamp b with
        | None => true
        | Some t => Qgeb (now - t) (refractoryMs c)
        end in
      if Qgeb closedDurationMs (minCloseDurationMs c) && refractoryOver
      then mkBlinkState false None (Some now) (blinkCountOf b + 1)
      else mkBlinkState false None (lastBlinkTimestamp b) (blinkCountOf b)
    else b
  else if Qltb earAvg (closeThreshold c)
       then mkBlinkState true (Some now) (lastBlinkTimestamp b) (blinkCountOf b)
       else b.

(** The blink detector's state inside a session. *)
Definition blinkStateOf (s : Session) : BlinkState :=
  mkBlinkState (eyesWereClosedRef (refs s)) (eyesClosedSinceRef (refs s))
               (Some (lastBlinkAtRef (refs s))) (blinkCount (state s)).

(** What a caller can hand to the component of a blink configuration: the
    props have a close threshold and a minimum closure, nothing else. *)
Definition propsOf (c : BlinkConfig) : Props :=
  {| sessionWindowMs := sessionWindowMs defaultProps;
     earThreshold := closeThreshold c;
     earCloseMinMs := minCloseDurationMs c;
     yawAbsThreshold := yawAbsThreshold defaultProps;
     yawHoldMinMs := yawHoldMinMs defaultProps |}.

(** The configuration [onResults] works with under props [p]. *)
Definition configOf (p : Props) : BlinkConfig :=
  {| closeThreshold := earThreshold p; margin := 0.03;
     minCloseDurationMs := earCloseMinMs p; refractoryMs := 250 |}.

(** ** Invariants *)

(** [closedSinceTimestamp] is set iff [isClosed]. *)
Definition blinkInvariant (s : Session) : Prop :=
  eyesClosedSinceRef (refs s) <> None <-> eyesWereClosedRef (refs s) = true.

(** [closedSinceTimestamp] is set only if [isClosed]. *)
Definition closedSinceOnlyWhenClosed (s : Session) : Prop :=
  eyesClosedSinceRef (refs s) <> None -> eyesWereClosedRef (refs s) = true.

(** ** Statements that do not hold of the component, as they are worded *)


(** No face: both [closedSinceTimestamp] and [isClosed] are cleared, and
    the blink invariant holds after every frame. *)
Definition stated_noFace_blink : Prop :=
  (forall (p : Props) (rd : State) (now : Q) (s : Session),
      let s' := step p rd None now s in
      eyesClosedSinceRef (refs s') = None /\ eyesWereClosedRef (refs s') = false) /\
  (forall (p : Props) (rd : State) (lm0 : option Landmarks) (now : Q) (s : Session),
      blinkInvariant s -> blinkInvariant (step p rd lm0 now s)).

(** No face: the timers are cleared, the smoothers keep their values and
    the snapshot does not change. *)
Definition stated_noFace_frame : Prop :=
  forall (p : Props) (rd : State) (now : Q) (s : Session),
    settled s ->
    let s' := step p rd None now s in
    eyesClosedSinceRef (refs s') = None /\
    yawBeyondSinceRef (refs s') = None /\
    earLeftEMARef (refs s') = earLeftEMARef (refs s) /\
    earRightEMARef (refs s') = earRightEMARef (refs s) /\
    yawEMARef (refs s') = yawEMARef (refs s) /\
    snapshot s' = snapshot s.

(** Every comparison of the blink detector uses the caller's configuration. *)
Definition stated_blink_config : Prop :=
  forall (c : BlinkConfig) (rd : State) (lm : Landmarks) (earL earR now : Q) (s : Session),
    earFromLandmarks lm 159 145 33 133 = Some earL ->
    earFromLandmarks lm 386 374 263 362 = Some earR ->
    blinkCountRef (refs s) = blinkCount (state s) ->
    blinkStateOf (step (propsOf c) rd (Some lm) now s)
    = specBlink c now (earAvgOf s earL earR) (blinkStateOf s).

(** A malformed landmark set is handled as no face: timers cleared, counts
    unchanged. *)
Definition stated_malformed : Prop :=
  forall (p : Props) (rd : State) (lm : Landmarks) (now : Q) (s : Session),
    malformed lm ->
    let s' := step p rd (Some lm) now s in
    eyesClosedSinceRef (refs s') = eyesClosedSinceRef (refs (step p rd None now s)) /\
    yawBeyondSinceRef (refs s') = yawBeyondSinceRef (refs (step p rd None now s)) /\
    blinkCount (state s') = blinkCount (state s).

End LivenessChecker.

(** ** Worked examples

    A landmark set reduced to what the extractors make of it: the EAR of
    each eye and the yaw proxy, [None] where the extractor raises. *)

Record SampleLandmarks : Type := mkSample {
  sampleLeftEar : option Q;
  sampleRightEar : option Q;
  sampleYaw : option Q
}.

#[export] Instance sampleGeometry : GeometryLib := {|
  Landmarks := SampleLandmarks;
  earFromLandmarks := fun lm top _ _ _ =>
    if Nat.eqb top 159 then sampleLeftEar lm else sampleRightEar lm;
  yawProxy := sampleYaw
|}.

Definition face (l r y : Q) : option (@Landmarks sampleGeometry) :=
  Some (mkSample (Some l) (Some r) (Some y)).

(** A set without the eye landmarks, and one without the cheek landmarks. *)
Definition noEyes (y : Q) : @Landmarks sampleGeometry := mkSample None None (Some y).
Definition noCheeks (l r : Q) : @Landmarks sampleGeometry := mkSample (Some l) (Some r) None.

(** A session started at page load. *)
Definition session0 : Session := resetSession 0 mount.

Definition play (fs : list (option (@Landmarks sampleGeometry) * Q)) : Session :=
  processFrames defaultProps fs session0.

(** Eyes open, then closed from 2000 on. *)
Definition openThenClosed : list (option (@Landmarks sampleGeometry) * Q) :=
  [ (face 0.25 0.25 0, 1000); (face 0 0 0, 2000) ].

(** Two blinks (closed 2000-2180 and 3050-3200). *)
Definition twoBlinks : list (option (@Landmarks sampleGeometry) * Q) :=
  openThenClosed ++
  [ (face 0.5 0.5 0, 2180);
    (face 0 0 0, 3000); (face 0 0 0, 3050); (face 0.5 0.5 0, 3200) ].

(** The head turns right; the smoothed yaw is beyond the threshold from
    3400 on. *)
Definition turnRightStart : list (option (@Landmarks sampleGeometry) * Q) :=
  [ (face 0.25 0.25 1, 3300); (face 0.25 0.25 1, 3350); (face 0.25 0.25 1, 3400);
    (face 0.25 0.25 1, 3450) ].

(** The turn is held for 300 ms at 3700. *)
Definition turnRight : list (option (@Landmarks sampleGeometry) * Q) :=
  turnRightStart ++ [ (face 0.25 0.25 1, 3700) ].

(** The head swings left; the smoothed yaw is beyond the threshold from
    3850 on. *)
Definition swingLeft : list (option (@Landmarks sampleGeometry) * Q) :=
  [ (face 0.25 0.25 (-3), 3800); (face 0.25 0.25 (-3), 3850) ].

(** The eyes close at 10 ms after the clock's origin. *)
Definition earlyClosure : list (option (@Landmarks sampleGeometry) * Q) :=
  [ (face 0.1 0.1 0, 10) ].

(** The same closure a second later. *)
Definition laterClosure : list (option (@Landmarks sampleGeometry) * Q) :=
  [ (face 0.1 0.1 0, 1010) ].

(** The eyes close again 10 ms after the second blink was counted. *)
Definition quickSecondClosure : list (option (@Landmarks sampleGeometry) * Q) :=
  twoBlinks ++ [ (face 0 0 0, 3210); (face 0 0 0, 3220) ].

(** The default configuration but for a shorter refractory period. *)
Definition shortRefractory : BlinkConfig :=
  {| closeThreshold := 0.18; margin := 0.03; minCloseDurationMs := 120;
     refractoryMs := 100 |}.

(** ** The effects of a frame on what is not a detector *)

(** [handleReset]: [stop], a pause of 80 ms, then [start]. *)
Definition handleReset (dateNow : Q) (failure : option string) (s : Session) : Session :=
  start dateNow failure (stop s).

(** ** The earlier revision of the component

    The first [LivenessChecker] of the file ("fresh onChange"): one EAR
    threshold, no refractory period, one recorded turn.  It has neither the
    two turn flags nor [lastBlinkAtRef] and [blinkCountRef]; in the sessions
    below these fields of [State] and [Refs] are never written. *)

Module Earlier.

(** The value of a decimal digit. *)
Definition digitValue (c : Ascii.ascii) : option N :=
  let n := Ascii.N_of_ascii c in
  if (48 <=? n)%N && (n <=? 57)%N then Some (n - 48)%N else None.

Fixpoint digitsToNumber (acc : N) (str : string) : option N :=
  match str with
  | EmptyString => Some acc
  | String c rest =>
      match digitValue c with
      | Some d => digitsToNumber (10 * acc + d)%N rest
      | None => None
      end
  end.

(** [ToNumber] of a string made of decimal digits (the empty string is 0);
    [None] is NaN.  Signs, fractions, exponents, radix prefixes and blanks
    are not covered: the component applies it to "left" only, which is NaN
    under the full grammar as well. *)
Definition stringToNumber (str : string) : option Q :=
  option_map (fun n => inject_Z (Z.of_N n)) (digitsToNumber 0%N str).

(** [b == str] for a boolean and a string: both operands are converted
    with ToNumber, and NaN equals nothing. *)
Definition looseEqBoolString (b : bool) (str : string) : bool :=
  match stringToNumber str with
  | Some n => Qeq_bool (if b then 1 else 0) n
  | None => false
  end.

Section Component.

Context {G : GeometryLib}.

(** [resetSession] *)
Definition resetSession (dateNow : Q) (s : Session) : Session :=
  let s := setState (setBlinkCount 0%nat) s in
  let s := setState (setTurnDetected None) s in
  let s := setState (setLivenessPassed false) s in
  let s := setState (setPermissionError None) s in
  let s := setState (setLeftEAR 0) s in
  let s := setState (setRightEAR 0) s in
  let s := setState (setYawDev 0) s in
  let s := assign (put_earLeftEMARef None) s in
  let s := assign (put_earRightEMARef None) s in
  let s := assign (put_eyesClosedSinceRef None) s in
  let s := assign (put_eyesWereClosedRef false) s in
  let s := assign (put_yawEMARef None) s in
  let s := assign (put_yawBeyondSinceRef None) s in
  let s := assign (put_startedAtRef (Some dateNow)) s in
  let s := assign (put_frameCountRef 0%nat) s in
  assign (put_lastFacePresentRef false) s.

(** [checkComplete]; in [blinkCount >= 2 && !!turnDetected == "left"] the
    negations bind first, so a boolean is compared with the string. *)
Definition checkComplete (rd : State) (s : Session) : Session :=
  let ok := (2 <=? blinkCount rd)%nat
            && looseEqBoolString (truthy (turnDetected rd)) "left" in
  if ok && negb (livenessPassed rd)
  then setState (setLivenessPassed true) s
  else s.

(** [checkWindow]: informational only. *)
Definition checkWindow (s : Session) : Session :=
  match startedAtRef (refs s) with
  | None => s
  | Some _ => s
  end.

(** [onResults], "Blink via EAR" after the smoothing; the count is raised
    with an updater, [setBlinkCount((c) => c + 1)]. *)
Definition onResults_blink (p : Props) (now earAvg : Q) (s : Session) : Session :=
  let eyesClosed := Qltb earAvg (earThreshold p) in
  if eyesClosed then
    if negb (eyesWereClosedRef (refs s)) then
      let s := assign (put_eyesWereClosedRef true) s in
      assign (put_eyesClosedSinceRef (Some now)) s
    else s
  else if eyesWereClosedRef (refs s) then
    let closedMs := now - nullish (eyesClosedSinceRef (refs s)) now in
    let s := assign (put_eyesWereClosedRef false) s in
    let s := assign (put_eyesClosedSinceRef None) s in
    if Qgeb closedMs (earCloseMinMs p)
    then setState (fun t => setBlinkCount (blinkCount t + 1)%nat t) s
    else s
  else s.

(** [onResults], "Head turn via yaw" after the smoothing. *)
Definition onResults_yaw (p : Props) (rd : State) (now yawSm : Q) (s : Session) : Session :=
  let beyond := Qgeb (Qabs yawSm) (yawAbsThreshold p) in
  if beyond then
    match yawBeyondSinceRef (refs s) with
    | None => assign (put_yawBeyondSinceRef (Some now)) s
    | Some since =>
        if Qeq_bool since 0 then assign (put_yawBeyondSinceRef (Some now)) s
        else
          let held := now - since in
          if negb (truthy (turnDetected rd)) && Qgeb held (yawHoldMinMs p) then
            let dir := if Qgtb yawSm 0 then Right else Left in
            setState (setTurnDetected (Some dir)) s
          else s
    end
  else assign (put_yawBeyondSinceRef None) s.

(** [onResults] *)
Definition onResults (p : Props) (rd : State) (lm0 : option Landmarks) (now : Q)
    (s : Session) : Session :=
  let s := assign (put_frameCountRef (frameCountRef (refs s) + 1)%nat) s in
  let facePresent := truthy lm0 in
  let s := assign (put_lastFacePresentRef facePresent) s in
  match lm0 with
  | None =>
      let s := assign (put_eyesClosedSinceRef None) s in
      let s := assign (put_yawBeyondSinceRef None) s in
      let s := updateDebug 0 0 0 s in
      checkWindow s
  | Some lm =>
      match earFromLandmarks lm 159 145 33 133 with
      | None => s
      | Some earL =>
      match earFromLandmarks lm 386 374 263 362 with
      | None => s
      | Some earR =>
          let s := assign (put_earLeftEMARef
                             (Some (ema (earLeftEMARef (refs s)) earL 0.35))) s in
          let s := assign (put_earRightEMARef
                             (Some (ema (earRightEMARef (refs s)) earR 0.35))) s in
          let lSm := nullish (earLeftEMARef (refs s)) earL in
          let rSm := nullish (earRightEMARef (refs s)) earR in
          let earAvg := (lSm + rSm) / 2 in
          let s := onResults_blink p now earAvg s in
          match yawProxy lm with
          | None => s
          | Some yawRaw =>
              let s := assign (put_yawEMARef
                                 (Some (ema (yawEMARef (refs s)) yawRaw 0.25))) s in
              let yawSm := nullish (yawEMARef (refs s)) yawRaw in
              let s := onResults_yaw p rd now yawSm s in
              let s := updateDebug lSm rSm yawSm s in
              let s := checkComplete rd s in
              checkWindow s
          end
      end
      end
  end.

(** The "final guard" effect of the earlier revision. *)
Definition finalGuard (s : Session) : Session :=
  let t := state s in
  if negb (livenessPassed t) && (2 <=? blinkCount t)%nat && truthy (turnDetected t)
  then setState (setLivenessPassed true) s
  else s.

Definition step (p : Props) (rd : State) (lm0 : option Landmarks) (now : Q)
    (s : Session) : Session :=
  finalGuard (onResults p rd lm0 now s).

(** One frame as the component receives it.  Here too [onResults] is
    registered in [start] only, and [start] is memoised on [resetSession]:
    the callback is the first render's. *)
Definition processFrame (p : Props) (lm0 : option Landmarks) (now : Q) (s : Session)
  : Session :=
  step p firstRender lm0 now s.

Fixpoint run (p : Props) (evs : list Event) (s : Session) : Session :=
  match evs with
  | [] => s
  | (rd, lm0, now) :: evs' => run p evs' (step p rd lm0 now s)
  end.

Fixpoint processFrames (p : Props) (fs : list (option Landmarks * Q)) (s : Session)
  : Session :=
  match fs with
  | [] => s
  | (lm0, now) :: fs' => processFrames p fs' (processFrame p lm0 now s)
  end.

End Component.

End Earlier.

(** ** The script loader

    [loadScriptOnce] and the module-level [scriptCache].  A promise is
    named by the order of its creation; it settles once, with the first of
    its script element's load event, its error event and its timeout. *)

Module Loader.

(** [Rejected TimedOut] carries "Timeout loading <src>", [Rejected
    FailedToLoad] carries "Failed to load <src>". *)
Inductive Failure : Type := TimedOut | FailedToLoad.

Inductive Settled : Type := Fulfilled | Rejected (why : Failure).

Record Page : Type := mkPage {
  scriptCache : list (string * nat);
  settled : list (nat * Settled);
  headScripts : list (nat * string);
  timers : list nat;
  promiseCount : nat
}.

Definition emptyPage : Page := mkPage [] [] [] [] 0.

(** [scriptCache.get(src)] *)
Fixpoint cacheGet (src : string) (cache : list (string * nat)) : option nat :=
  match cache with
  | [] => None
  | (k, p) :: rest => if String.eqb k src then Some p else cacheGet src rest
  end.

(** The state of a promise: [None] while it is pending. *)
Fixpoint outcome (p : nat) (l : list (nat * Settled)) : option Settled :=
  match l with
  | [] => None
  | (q, o) :: rest => if Nat.eqb q p then Some o else outcome p rest
  end.

(** [resolve()] and [reject(..)]: without effect on a settled promise. *)
Definition settle (p : nat) (o : Settled) (pg : Page) : Page :=
  match outcome p (settled pg) with
  | Some _ => pg
  | None => mkPage (scriptCache pg) ((p, o) :: settled pg) (headScripts pg) (timers pg)
                   (promiseCount pg)
  end.

(** [clearTimeout(timer)] *)
Definition clearTimeout (p : nat) (pg : Page) : Page :=
  mkPage (scriptCache pg) (settled pg) (headScripts pg)
         (filter (fun q => negb (Nat.eqb q p)) (timers pg)) (promiseCount pg).

(** [el.remove()] *)
Definition removeScript (p : nat) (pg : Page) : Page :=
  mkPage (scriptCache pg) (settled pg)
         (filter (fun e => negb (Nat.eqb (fst e) p)) (headScripts pg))
         (timers pg) (promiseCount pg).

(** [loadScriptOnce(src)]: the promise returned and the page. *)
Definition loadScriptOnce (src : string) (pg : Page) : nat * Page :=
  match cacheGet src (scriptCache pg) with
  | Some p => (p, pg)
  | None =>
      let p := promiseCount pg in
      (p, mkPage ((src, p) :: scriptCache pg) (settled pg)
                 (headScripts pg ++ [(p, src)]) (p :: timers pg) (S p))
  end.

(** [el.onload] *)
Definition onload (p : nat) (pg : Page) : Page := settle p Fulfilled (clearTimeout p pg).

(** [el.onerror] *)
Definition onerror (p : nat) (pg : Page) : Page :=
  settle p (Rejected FailedToLoad) (clearTimeout p pg).

(** The callback given to [setTimeout]; it runs only while its timer is
    pending, and the timer is spent by it. *)
Definition ontimeout (p : nat) (pg : Page) : Page :=
  if existsb (Nat.eqb p) (timers pg)
  then settle p (Rejected TimedOut) (removeScript p (clearTimeout p pg))
  else pg.

(** What happens on the page: a call of [loadScriptOnce], or an event of
    the script element of a promise. *)
Inductive Action : Type :=
| Load (src : string)
| ScriptLoaded (p : nat)
| ScriptFailed (p : nat)
| TimerFired (p : nat).

Definition act (a : Action) (pg : Page) : Page :=
  match a with
  | Load src => snd (loadScriptOnce src pg)
  | ScriptLoaded p => if (p <? promiseCount pg)%nat then onload p pg else pg
  | ScriptFailed p => if (p <? promiseCount pg)%nat then onerror p pg else pg
  | TimerFired p => ontimeout p pg
  end.

Fixpoint runActions (acts : list Action) (pg : Page) : Page :=
  match acts with
  | [] => pg
  | a :: rest => runActions rest (act a pg)
  end.

(** The script elements in the document's head that load [src]. *)
Definition scriptsFor (src : string) (pg : Page) : nat :=
  List.length (filter (fun e => String.eqb (snd e) src) (headScripts pg)).

End Loader.

(** ** Further worked examples *)

(** Eyes open. *)
Definition openEyes : list (option (@Landmarks sampleGeometry) * Q) :=
  [ (face 0.25 0.25 0, 1000) ].

(** The head is turned right on a frame stamped with the clock's origin. *)
Definition turnAtOrigin : list (option (@Landmarks sampleGeometry) * Q) :=
  [ (face 0.25 0.25 1, 0) ].

(** A session of the earlier revision, started at page load. *)
Definition earlierPlay (fs : list (option (@Landmarks sampleGeometry) * Q)) : Session :=
  Earlier.processFrames defaultProps fs (Earlier.resetSession 0 mount).

(** A page on which a script was requested and timed out. *)
Definition timedOutPage : Loader.Page :=
  Loader.runActions [Loader.Load "face_mesh.js"; Loader.TimerFired 0] Loader.emptyPage.

(** ** Properties *)

(** Reads a field through setter calls and ref assignments. *)
Ltac fields :=
  cbv beta iota zeta delta [setState assign
       setIsRunning setPermissionError setBlinkCount setTurnDetected setLivenessPassed
       setLeftEAR setRightEAR setYawDev setTurnedLeft setTurnedRight
       put_startedAtRef put_earLeftEMARef put_earRightEMARef put_eyesClosedSinceRef
       put_eyesWereClosedRef put_lastBlinkAtRef put_yawEMARef put_yawBeyondSinceRef
       put_frameCountRef put_lastFacePresentRef put_blinkCountRef
       state refs isRunning permissionError blinkCount turnDetected livenessPassed
       leftEAR rightEAR yawDev turnedLeft turnedRight
       startedAtRef earLeftEMARef earRightEMARef eyesClosedSinceRef eyesWereClosedRef
       lastBlinkAtRef yawEMARef yawBeyondSinceRef frameCountRef lastFacePresentRef
       blinkCountRef truthy nullish fst snd] in *.

(** Opens a session into its fields. *)
Ltac open_session s :=
  let t := fresh "t" in let r := fresh "r" in
  destruct s as [t r]; destruct t, r; fields.

(** Decides a comparison of two given rationals. *)
Ltac Qdecide :=
  first [ apply Qle_bool_imp_le; vm_compute; reflexivity
        | vm_compute; reflexivity
        | vm_compute; discriminate ].

Section Properties.

Context {G : GeometryLib}.

Lemma Qgeb_true (a b : Q) : Qgeb a b = true <-> b <= a.
Proof. unfold Qgeb. apply Qle_bool_iff. Qed.

Lemma Qgeb_false (a b : Q) : Qgeb a b = false <-> a < b.
Proof.
  unfold Qgeb. split; intro H.
  - apply Qnot_le_lt. intro L. apply Qle_bool_iff in L. congruence.
  - destruct (Qle_bool b a) eqn:E; trivial.
    apply Qle_bool_iff in E. exfalso. apply (Qlt_not_le _ _ H E).
Qed.

Lemma Qltb_true (a b : Q) : Qltb a b = true <-> a < b.
Proof. unfold Qltb. rewrite negb_true_iff. apply (Qgeb_false a b). Qed.

Lemma Qltb_false (a b : Q) : Qltb a b = false <-> b <= a.
Proof. unfold Qltb. rewrite negb_false_iff. apply (Qgeb_true a b). Qed.

Lemma Qgtb_true (a b : Q) : Qgtb a b = true <-> b < a.
Proof. apply (Qltb_true b a). Qed.

Lemma Qgtb_false (a b : Q) : Qgtb a b = false <-> a <= b.
Proof. apply (Qltb_false b a). Qed.


Lemma le_refl_bool (b : bool) : Bool.le b b.
Proof. destruct b; exact I || reflexivity. Qed.

Lemma le_true_bool (b : bool) : Bool.le b true.
Proof. destruct b; reflexivity. Qed.

Lemma le_trans_bool (a b c : bool) : Bool.le a b -> Bool.le b c -> Bool.le a c.
Proof. destruct a, b, c; simpl; auto; discriminate. Qed.

(** *** What each part of [onResults] may write *)

Lemma onResults_check_shape (rd : State) (n : nat) (s : Session) :
  exists b : bool,
    onResults_check rd n s = setState (setLivenessPassed b) s /\
    Bool.le (livenessPassed (state s)) b.
Proof.
  unfold onResults_check.
  destruct (negb (livenessPassed rd) && (2 <=? n)%nat && truthy (turnDetected rd)).
  - exists true. split; [reflexivity | apply le_true_bool].
  - exists (livenessPassed (state s)). split; [|apply le_refl_bool].
    open_session s. reflexivity.
Qed.

Lemma onResults_turn_shape (rd : State) (yawSm : Q) (n : nat) (s : Session) :
  exists (d : option Direction) (l r b : bool),
    onResults_turn rd yawSm n s
    = setState (setLivenessPassed b)
        (setState (setTurnedRight r)
           (setState (setTurnedLeft l) (setState (setTurnDetected d) s))) /\
    Bool.le (turnedLeft (state s)) l /\
    Bool.le (turnedRight (state s)) r /\
    Bool.le (livenessPassed (state s)) b.
Proof.
  open_session s. unfold onResults_turn.
  destruct (Qgtb yawSm 0), (negb (truthy (turnDetected rd)));
    match goal with
    | |- context [if ?c then _ else _] => destruct c
    end;
    do 4 eexists; (split; [fields; reflexivity|]);
    fields; repeat split; auto using le_refl_bool, le_true_bool.
Qed.

Lemma onResults_yaw_shape (p : Props) (rd : State) (now yawSm : Q) (n : nat) (s : Session) :
  exists (since : option Q) (d : option Direction) (l r b : bool),
    onResults_yaw p rd now yawSm n s
    = assign (put_yawBeyondSinceRef since)
        (setState (setLivenessPassed b)
           (setState (setTurnedRight r)
              (setState (setTurnedLeft l) (setState (setTurnDetected d) s)))) /\
    Bool.le (turnedLeft (state s)) l /\
    Bool.le (turnedRight (state s)) r /\
    Bool.le (livenessPassed (state s)) b.
Proof.
  assert (Hsame : forall since : option Q,
             exists (since' : option Q) (d : option Direction) (l r b : bool),
               assign (put_yawBeyondSinceRef since) s
               = assign (put_yawBeyondSinceRef since')
                   (setState (setLivenessPassed b)
                      (setState (setTurnedRight r)
                         (setState (setTurnedLeft l) (setState (setTurnDetected d) s)))) /\
               Bool.le (turnedLeft (state s)) l /\
               Bool.le (turnedRight (state s)) r /\
               Bool.le (livenessPassed (state s)) b).
  { intro since. exists since, (turnDetected (state s)), (turnedLeft (state s)),
      (turnedRight (state s)), (livenessPassed (state s)).
    split; [open_session s; reflexivity | auto using le_refl_bool]. }
  unfold onResults_yaw.
  destruct (Qgeb (Qabs yawSm) (yawAbsThreshold p)); [|apply Hsame].
  destruct (yawBeyondSinceRef (refs s)) as [since|] eqn:Es; [|apply Hsame].
  destruct (Qeq_bool since 0); [apply Hsame|].
  destruct (Qgeb (now - since) (yawHoldMinMs p)).
  - destruct (onResults_turn_shape rd yawSm n s) as (d & l & r & b & -> & Hl & Hr & Hb).
    exists (Some since), d, l, r, b. split; [|auto].
    open_session s. simpl in Es. subst. reflexivity.
  - destruct (Hsame (Some since)) as (x & d & l & r & b & E & H).
    exists x, d, l, r, b. split; [|exact H]. rewrite <- E.
    open_session s. simpl in Es. subst. reflexivity.
Qed.

Lemma onResults_blink_shape (p : Props) (rd : State) (now earAvg : Q) (s : Session) :
  exists (w : bool) (c : option Q) (k : Q) (nr nc : nat),
    fst (onResults_blink p rd now earAvg s)
    = assign (put_lastBlinkAtRef k)
        (assign (put_blinkCountRef nr)
           (setState (setBlinkCount nc)
              (assign (put_eyesClosedSinceRef c) (assign (put_eyesWereClosedRef w) s)))) /\
    ((nr = blinkCountRef (refs s) /\ nc = blinkCount (state s)) \/
     (nr = (blinkCountRef (refs s) + 1)%nat /\ nc = nr)).
Proof.
  open_session s. unfold onResults_blink. fields.
  repeat match goal with
         | |- context [if ?c then _ else _] => destruct c
         end;
    do 5 eexists; (split; [fields; reflexivity|]); auto.
Qed.

Lemma runEffects_shape (s : Session) :
  exists b : bool,
    runEffects s
    = assign (put_blinkCountRef (blinkCount (state s))) (setState (setLivenessPassed b) s) /\
    Bool.le (livenessPassed (state s)) b /\
    (b = true ->
     livenessPassed (state s) = true \/
     (turnedLeft (state s) = true /\ turnedRight (state s) = true /\
      (2 <= blinkCount (state s))%nat)).
Proof.
  open_session s. unfold runEffects, syncBlinkCountRef, finalGuard. fields.
  match goal with
  | |- context [if ?c then _ else _] => destruct c eqn:E
  end.
  - exists true. split; [reflexivity|]. split; [apply le_true_bool|].
    intros _. right.
    repeat (apply andb_true_iff in E; destruct E as [E ?]).
    repeat split; trivial. now apply Nat.leb_le.
  - eexists. split; [reflexivity|]. split; [apply le_refl_bool | auto].
Qed.

(** *** [onResults] on a face whose eye landmarks are present *)

Lemma onResults_face (p : Props) (rd : State) (lm : Landmarks) (earL earR now : Q)
    (s : Session) :
  earFromLandmarks lm 159 145 33 133 = Some earL ->
  earFromLandmarks lm 386 374 263 362 = Some earR ->
  onResults p rd (Some lm) now s
  = let bl := onResults_blink p rd now (earAvgOf s earL earR) (smoothedEars s earL earR) in
    match yawProxy lm with
    | None => fst bl
    | Some yawRaw =>
        onResults_check rd (snd bl)
          (updateDebug (smoothedLeft s earL) (smoothedRight s earR) (smoothedYaw s yawRaw)
             (onResults_yaw p rd now (smoothedYaw s yawRaw) (snd bl)
                (assign (put_yawEMARef (Some (smoothedYaw s yawRaw))) (fst bl))))
    end.
Proof.
  intros HL HR. unfold onResults. rewrite HL, HR.
  open_session s.
  unfold earAvgOf, smoothedEars. unfold smoothedLeft, smoothedRight, smoothedYaw. fields.
  match goal with
  | |- context [onResults_blink p rd now ?e ?s1] =>
      destruct (onResults_blink_shape p rd now e s1) as (w & c & k & nr & nc & E & _);
      destruct (onResults_blink p rd now e s1) as [s2 n]
  end.
  fields. subst s2. fields. reflexivity.
Qed.

Lemma blinkStateOf_smoothedEars (s : Session) (earL earR : Q) :
  blinkStateOf (smoothedEars s earL earR) = blinkStateOf s.
Proof. open_session s. reflexivity. Qed.

(** The blink detector of [onResults] is [specBlink] with margin 0.03 and a
    refractory period of 250 ms. *)
Lemma onResults_blink_spec (p : Props) (rd : State) (now earAvg : Q) (s : Session) :
  blinkCountRef (refs s) = blinkCount (state s) ->
  blinkStateOf (fst (onResults_blink p rd now earAvg s))
  = specBlink (configOf p) now earAvg (blinkStateOf s).
Proof.
  open_session s. intros ->.
  unfold onResults_blink, specBlink, blinkStateOf, configOf, Qltb, Qgeb.
  cbn [closeThreshold margin minCloseDurationMs refractoryMs isClosed
       closedSinceTimestamp lastBlinkTimestamp blinkCountOf]. fields.
  destruct eyesWereClosedRef0;
    repeat match goal with
           | |- context [Qle_bool ?x ?y] => destruct (Qle_bool x y)
           end; reflexivity.
Qed.

(** *** One frame, seen from each detector *)

Lemma blinkStateOf_runEffects (s : Session) :
  blinkStateOf (runEffects s) = blinkStateOf s.
Proof.
  destruct (runEffects_shape s) as (b & -> & _). open_session s. reflexivity.
Qed.

Lemma turnStateOf_runEffects (s : Session) :
  turnStateOf (runEffects s) = turnStateOf s.
Proof.
  destruct (runEffects_shape s) as (b & -> & _). open_session s. reflexivity.
Qed.

Lemma step_face_blinkState (p : Props) (rd : State) (lm : Landmarks) (earL earR now : Q)
    (s : Session) :
  earFromLandmarks lm 159 145 33 133 = Some earL ->
  earFromLandmarks lm 386 374 263 362 = Some earR ->
  blinkStateOf (step p rd (Some lm) now s)
  = blinkStateOf (fst (onResults_blink p rd now (earAvgOf s earL earR)
                         (smoothedEars s earL earR))).
Proof.
  intros HL HR. unfold step.
  rewrite blinkStateOf_runEffects, (onResults_face p rd lm earL earR now s HL HR).
  cbv zeta.
  destruct (onResults_blink p rd now (earAvgOf s earL earR) (smoothedEars s earL earR))
    as [s2 n].
  cbn [fst snd].
  destruct (yawProxy lm) as [yawRaw|]; [|reflexivity].
  destruct (onResults_check_shape rd n
              (updateDebug (smoothedLeft s earL) (smoothedRight s earR)
                 (smoothedYaw s yawRaw)
                 (onResults_yaw p rd now (smoothedYaw s yawRaw) n
                    (assign (put_yawEMARef (Some (smoothedYaw s yawRaw))) s2))))
    as (b & -> & _).
  destruct (onResults_yaw_shape p rd now (smoothedYaw s yawRaw) n
              (assign (put_yawEMARef (Some (smoothedYaw s yawRaw))) s2))
    as (since & d & l & r & b' & -> & _).
  unfold updateDebug, blinkStateOf. fields. reflexivity.
Qed.

Lemma step_blinkState (p : Props) (rd : State) (lm : Landmarks) (earL earR now : Q)
    (s : Session) :
  earFromLandmarks lm 159 145 33 133 = Some earL ->
  earFromLandmarks lm 386 374 263 362 = Some earR ->
  blinkCountRef (refs s) = blinkCount (state s) ->
  blinkStateOf (step p rd (Some lm) now s)
  = specBlink (configOf p) now (earAvgOf s earL earR) (blinkStateOf s).
Proof.
  intros HL HR Hsync.
  rewrite (step_face_blinkState p rd lm earL earR now s HL HR).
  rewrite onResults_blink_spec, blinkStateOf_smoothedEars; [reflexivity|].
  open_session s. exact Hsync.
Qed.

(** The turn detector reads the timer and the captured render only. *)
Lemma turnStateOf_yaw (p : Props) (rd : State) (now yawSm : Q) (n n' : nat)
    (s x : Session) :
  turnStateOf x = turnStateOf s ->
  turnStateOf (onResults_yaw p rd now yawSm n x)
  = turnStateOf (onResults_yaw p rd now yawSm n' s).
Proof.
  open_session s. open_session x. unfold turnStateOf. fields.
  intros [= -> -> -> ->].
  unfold onResults_yaw, onResults_turn. fields.
  repeat match goal with
         | |- context [if ?c then _ else _] => destruct c
         | |- context [match ?c with Some _ => _ | None => _ end] => destruct c
         end; reflexivity.
Qed.

Lemma step_face_turnState (p : Props) (rd : State) (lm : Landmarks)
    (earL earR yawRaw now : Q) (s : Session) :
  earFromLandmarks lm 159 145 33 133 = Some earL ->
  earFromLandmarks lm 386 374 263 362 = Some earR ->
  yawProxy lm = Some yawRaw ->
  turnStateOf (step p rd (Some lm) now s)
  = turnStateOf (onResults_yaw p rd now (smoothedYaw s yawRaw) 0 s).
Proof.
  intros HL HR HY. unfold step.
  rewrite turnStateOf_runEffects, (onResults_face p rd lm earL earR now s HL HR), HY.
  cbv zeta.
  destruct (onResults_blink_shape p rd now (earAvgOf s earL earR)
              (smoothedEars s earL earR)) as (w & c & k & nr & nc & E & _).
  destruct (onResults_blink p rd now (earAvgOf s earL earR) (smoothedEars s earL earR))
    as [s2 n].
  cbn [fst snd] in *. subst s2.
  match goal with
  | |- context [onResults_check rd n ?x] =>
      destruct (onResults_check_shape rd n x) as (b & -> & _)
  end.
  match goal with
  | |- context [onResults_yaw p rd now ?y n ?x] =>
      transitivity (turnStateOf (onResults_yaw p rd now y n x));
      [ generalize (onResults_yaw p rd now y n x); intro z; open_session z; reflexivity
      | apply turnStateOf_yaw; open_session s; reflexivity ]
  end.
Qed.

(** *** Monotone quantities *)

Lemma step_flags_monotone (p : Props) (rd : State) (lm0 : option Landmarks) (now : Q)
    (s : Session) :
  Bool.le (livenessPassed (state s)) (livenessPassed (state (step p rd lm0 now s))) /\
  Bool.le (turnedLeft (state s)) (turnedLeft (state (step p rd lm0 now s))) /\
  Bool.le (turnedRight (state s)) (turnedRight (state (step p rd lm0 now s))).
Proof.
  unfold step.
  destruct (runEffects_shape (onResults p rd lm0 now s)) as (b & -> & Hb & _).
  revert Hb. generalize b. clear b.
  destruct lm0 as [lm|].
  - destruct (earFromLandmarks lm 159 145 33 133) as [earL|] eqn:HL;
      [destruct (earFromLandmarks lm 386 374 263 362) as [earR|] eqn:HR|].
    + rewrite (onResults_face p rd lm earL earR now s HL HR). cbv zeta.
      destruct (onResults_blink_shape p rd now (earAvgOf s earL earR)
                  (smoothedEars s earL earR)) as (w & c & k & nr & nc & E & _).
      destruct (onResults_blink p rd now (earAvgOf s earL earR)
                  (smoothedEars s earL earR)) as [s2 n].
      cbn [fst snd] in *. subst s2.
      destruct (yawProxy lm) as [yawRaw|].
      * match goal with
        | |- context [onResults_check rd n ?x] =>
            destruct (onResults_check_shape rd n x) as (b1 & -> & H1)
        end.
        match type of H1 with
        | context [onResults_yaw p rd now ?y n ?x] =>
            destruct (onResults_yaw_shape p rd now y n x) as (t & d & l & r & b2 & E2 & Hl & Hr & H2);
            rewrite E2 in *; clear E2
        end.
        open_session s. unfold updateDebug, smoothedEars in *. fields.
        intros b Hb. repeat split; eauto using le_trans_bool.
      * open_session s. unfold smoothedEars. fields. auto using le_refl_bool.
    + unfold onResults. rewrite HL, HR. open_session s. auto using le_refl_bool.
    + unfold onResults. rewrite HL. open_session s. auto using le_refl_bool.
  - unfold onResults, updateDebug. open_session s. auto using le_refl_bool.
Qed.

Lemma step_blinkCount_monotone (p : Props) (rd : State) (lm0 : option Landmarks) (now : Q)
    (s : Session) :
  blinkCountRef (refs s) = blinkCount (state s) ->
  blinkCountRef (refs (step p rd lm0 now s)) = blinkCount (state (step p rd lm0 now s)) /\
  (blinkCount (state s) <= blinkCount (state (step p rd lm0 now s)))%nat.
Proof.
  intro Hsync. split.
  - unfold step. destruct (runEffects_shape (onResults p rd lm0 now s)) as (b & -> & _).
    generalize (onResults p rd lm0 now s). intro x. open_session x. reflexivity.
  - change (blinkCountOf (blinkStateOf s)
            <= blinkCountOf (blinkStateOf (step p rd lm0 now s)))%nat.
    destruct lm0 as [lm|].
    + destruct (earFromLandmarks lm 159 145 33 133) as [earL|] eqn:HL;
        [destruct (earFromLandmarks lm 386 374 263 362) as [earR|] eqn:HR|].
      * rewrite (step_face_blinkState p rd lm earL earR now s HL HR).
        destruct (onResults_blink_shape p rd now (earAvgOf s earL earR)
                    (smoothedEars s earL earR)) as (w & c & k & nr & nc & -> & Hn).
        open_session s. unfold blinkStateOf, smoothedEars in *. fields.
        cbn [blinkCountOf]. lia.
      * unfold step. rewrite blinkStateOf_runEffects. unfold onResults.
        rewrite HL, HR. open_session s. apply Nat.le_refl.
      * unfold step. rewrite blinkStateOf_runEffects. unfold onResults.
        rewrite HL. open_session s. apply Nat.le_refl.
    + unfold step. rewrite blinkStateOf_runEffects. unfold onResults, updateDebug.
      open_session s. apply Nat.le_refl.
Qed.

Lemma run_monotone (p : Props) (evs : list Event) :
  forall s : Session,
    blinkCountRef (refs s) = blinkCount (state s) ->
    blinkCountRef (refs (run p evs s)) = blinkCount (state (run p evs s)) /\
    (blinkCount (state s) <= blinkCount (state (run p evs s)))%nat /\
    Bool.le (livenessPassed (state s)) (livenessPassed (state (run p evs s))) /\
    Bool.le (turnedLeft (state s)) (turnedLeft (state (run p evs s))) /\
    Bool.le (turnedRight (state s)) (turnedRight (state (run p evs s))).
Proof.
  induction evs as [|[[rd lm0] now] evs IH]; intros s Hsync; cbn [run].
  - auto using le_refl_bool.
  - destruct (step_blinkCount_monotone p rd lm0 now s Hsync) as [Hsync' Hle].
    destruct (step_flags_monotone p rd lm0 now s) as (Hp & Hl & Hr).
    destruct (IH _ Hsync') as (Hs & Hc & Hp' & Hl' & Hr').
    repeat split; eauto using le_trans_bool. lia.
Qed.


Lemma processFrames_run (p : Props) (fs : list (option Landmarks * Q)) :
  forall s : Session, processFrames p fs s = run p (eventsOf fs) s.
Proof.
  induction fs as [|[lm0 now] fs IH]; intro s; cbn [processFrames eventsOf run].
  - reflexivity.
  - apply IH.
Qed.

(** *** The smoother *)

(** C7.  The smoother is a total function: with no previous value it
    returns the sample unchanged, otherwise
    [alpha*sample + (1-alpha)*previous], which for [alpha] in (0,1] lies
    between the previous value and the sample.  [onResults] stores exactly
    this value for each signal, with weight 0.35 for the two EARs and 0.25
    for the yaw. *)
Theorem ema_update (sample alpha : Q) (Halpha : 0 < alpha /\ alpha <= 1) :
  ema None sample alpha = sample /\
  (forall previous : Q,
      ema (Some previous) sample alpha = alpha * sample + (1 - alpha) * previous) /\
  (forall previous : Q,
      previous <= sample -> previous <= ema (Some previous) sample alpha <= sample) /\
  (forall previous : Q,
      sample <= previous -> sample <= ema (Some previous) sample alpha <= previous) /\
  (forall (p : Props) (rd : State) (lm : Landmarks) (earL earR yawRaw now : Q)
          (s : Session),
      earFromLandmarks lm 159 145 33 133 = Some earL ->
      earFromLandmarks lm 386 374 263 362 = Some earR ->
      yawProxy lm = Some yawRaw ->
      earLeftEMARef (refs (step p rd (Some lm) now s))
      = Some (ema (earLeftEMARef (refs s)) earL 0.35) /\
      earRightEMARef (refs (step p rd (Some lm) now s))
      = Some (ema (earRightEMARef (refs s)) earR 0.35) /\
      yawEMARef (refs (step p rd (Some lm) now s))
      = Some (ema (yawEMARef (refs s)) yawRaw 0.25)).
Proof.
  destruct Halpha as [Hpos Hle].
  split; [reflexivity|]. split; [reflexivity|].
  split; [|split].
  - intros previous Hps. unfold ema. split; nra.
  - intros previous Hps. unfold ema. split; nra.
  - intros p rd lm earL earR yawRaw now s HL HR HY. unfold step.
    destruct (runEffects_shape (onResults p rd (Some lm) now s)) as (b & -> & _).
    rewrite (onResults_face p rd lm earL earR now s HL HR), HY. cbv zeta.
    destruct (onResults_blink_shape p rd now (earAvgOf s earL earR)
                (smoothedEars s earL earR)) as (w & c & k & nr & nc & E & _).
    destruct (onResults_blink p rd now (earAvgOf s earL earR)
                (smoothedEars s earL earR)) as [s2 n].
    cbn [fst snd] in *. subst s2.
    match goal with
    | |- context [onResults_check rd n ?x] =>
        destruct (onResults_check_shape rd n x) as (b1 & -> & _)
    end.
    match goal with
    | |- context [onResults_yaw p rd now ?y n ?x] =>
        destruct (onResults_yaw_shape p rd now y n x) as (t & d & l & r & b2 & -> & _)
    end.
    open_session s.
    unfold updateDebug, smoothedEars, smoothedLeft, smoothedRight, smoothedYaw. fields.
    auto.
Qed.

(** *** The blink detector *)

(** C3.  A closed detector whose averaged smoothed EAR reaches the open
    threshold (close threshold + 0.03) leaves the closed state, and counts
    one blink, stamping the clock reading, exactly when the closure lasted
    [earCloseMinMs] or more and the last counted blink is 250 ms or more
    away; otherwise nothing is counted.  Below the open threshold it stays
    closed and nothing changes. *)
Theorem blink_exit_transition (p : Props) (rd : State) (lm : Landmarks)
    (earL earR now since : Q) (s : Session) :
  earFromLandmarks lm 159 145 33 133 = Some earL ->
  earFromLandmarks lm 386 374 263 362 = Some earR ->
  eyesWereClosedRef (refs s) = true ->
  eyesClosedSinceRef (refs s) = Some since ->
  blinkCountRef (refs s) = blinkCount (state s) ->
  let earAvg := earAvgOf s earL earR in
  let s' := step p rd (Some lm) now s in
  (earThreshold p + 0.03 <= earAvg ->
     eyesWereClosedRef (refs s') = false /\
     eyesClosedSinceRef (refs s') = None /\
     (earCloseMinMs p <= now - since /\ 250 <= now - lastBlinkAtRef (refs s) ->
        blinkCount (state s') = (blinkCount (state s) + 1)%nat /\
        lastBlinkAtRef (refs s') = now) /\
     (~ (earCloseMinMs p <= now - since /\ 250 <= now - lastBlinkAtRef (refs s)) ->
        blinkCount (state s') = blinkCount (state s) /\
        lastBlinkAtRef (refs s') = lastBlinkAtRef (refs s))) /\
  (earAvg < earThreshold p + 0.03 ->
     eyesWereClosedRef (refs s') = true /\
     eyesClosedSinceRef (refs s') = Some since /\
     blinkCount (state s') = blinkCount (state s) /\
     lastBlinkAtRef (refs s') = lastBlinkAtRef (refs s)).
Proof.
  intros HL HR Hclosed Hsince Hsync. cbv zeta.
  pose proof (step_blinkState p rd lm earL earR now s HL HR Hsync) as E.
  revert E. generalize (earAvgOf s earL earR) (step p rd (Some lm) now s).
  intros earAvg s' E.
  unfold blinkStateOf, specBlink in E. rewrite Hclosed, Hsince in E.
  cbn [isClosed closedSinceTimestamp lastBlinkTimestamp blinkCountOf configOf
       closeThreshold margin minCloseDurationMs refractoryMs nullish] in E.
  split.
  - intro Hopen. apply Qgeb_true in Hopen. rewrite Hopen in E.
    destruct (Qgeb (now - since) (earCloseMinMs p)) eqn:Hlen;
      destruct (Qgeb (now - lastBlinkAtRef (refs s)) 250) eqn:Hrefr;
      cbn [andb] in E; injection E as -> -> -> ->;
      (split; [reflexivity|]); (split; [reflexivity|]); split;
      try (intros [H1 H2]; apply Qgeb_true in H1, H2; congruence);
      try (intros _; split; reflexivity);
      intro Hn; exfalso; apply Hn; split; apply Qgeb_true; assumption.
  - intro Hband. apply Qgeb_false in Hband. rewrite Hband in E.
    injection E as -> -> -> ->. auto.
Qed.

(** C8 (amended).  Of the blink detector's quantities only the close
    threshold and the minimum closure come from the caller
    ([earThreshold], [earCloseMinMs]); the margin is 0.03 and the refractory
    period 250 ms whatever the caller's configuration says: under any props
    the detector is the specified one at exactly these values. *)
Theorem blink_constants_fixed (p : Props) (rd : State) (lm : Landmarks)
    (earL earR now : Q) (s : Session) :
  earFromLandmarks lm 159 145 33 133 = Some earL ->
  earFromLandmarks lm 386 374 263 362 = Some earR ->
  blinkCountRef (refs s) = blinkCount (state s) ->
  blinkStateOf (step p rd (Some lm) now s)
  = specBlink (mkBlinkConfig (earThreshold p) 0.03 (earCloseMinMs p) 250) now
      (earAvgOf s earL earR) (blinkStateOf s) /\
  (forall c : BlinkConfig,
      configOf (propsOf c)
      = mkBlinkConfig (closeThreshold c) 0.03 (minCloseDurationMs c) 250).
Proof.
  intros HL HR Hsync. split.
  - exact (step_blinkState p rd lm earL earR now s HL HR Hsync).
  - intro c. reflexivity.
Qed.

(** C10.  The last-blink timestamp starts at 0, at mount and after every
    reset.  So when a closure of [earCloseMinMs] or more, the first of the
    session, ends at a clock reading below 250, the refractory test fails and
    the blink is dropped: the detector reopens and the count stays 0. *)
Theorem first_blink_in_refractory (p : Props) (rd : State) (lm : Landmarks)
    (earL earR now since : Q) (s : Session) :
  earFromLandmarks lm 159 145 33 133 = Some earL ->
  earFromLandmarks lm 386 374 263 362 = Some earR ->
  lastBlinkAtRef (refs s) = 0 ->
  blinkCount (state s) = 0%nat ->
  blinkCountRef (refs s) = 0%nat ->
  eyesWereClosedRef (refs s) = true ->
  eyesClosedSinceRef (refs s) = Some since ->
  earCloseMinMs p <= now - since ->
  earThreshold p + 0.03 <= earAvgOf s earL earR ->
  now < 250 ->
  let s' := step p rd (Some lm) now s in
  lastBlinkAtRef (refs mount) = 0 /\
  (forall (dateNow : Q) (s0 : Session), lastBlinkAtRef (refs (resetSession dateNow s0)) = 0) /\
  eyesWereClosedRef (refs s') = false /\
  eyesClosedSinceRef (refs s') = None /\
  blinkCount (state s') = 0%nat /\
  lastBlinkAtRef (refs s') = 0.
Proof.
  intros HL HR Hlast Hcount Href Hclosed Hsince Hlen Hopen Hearly. cbv zeta.
  split; [reflexivity|]. split; [reflexivity|].
  assert (Hsync : blinkCountRef (refs s) = blinkCount (state s)) by congruence.
  pose proof (step_blinkState p rd lm earL earR now s HL HR Hsync) as E.
  revert E Hopen. generalize (earAvgOf s earL earR) (step p rd (Some lm) now s).
  intros earAvg s' E Hopen.
  unfold blinkStateOf, specBlink in E. rewrite Hclosed, Hsince, Hlast, Hcount in E.
  cbn [isClosed closedSinceTimestamp lastBlinkTimestamp blinkCountOf configOf
       closeThreshold margin minCloseDurationMs refractoryMs nullish] in E.
  apply Qgeb_true in Hopen, Hlen. rewrite Hopen, Hlen in E.
  assert (Hrefr : Qgeb (now - 0) 250 = false) by (apply Qgeb_false; lra).
  rewrite Hrefr in E. cbn [andb] in E.
  injection E as -> -> -> ->. auto.
Qed.

(** *** Monotonicity within a session *)

(** C2.  In a session, that is after a reset and any frames, whatever
    render each callback invocation captured, further frames never lower
    [blinkCount] and never take [livenessPassed] back from true to false;
    [resetSession] and [start] clear both, [stop] keeps both. *)
Theorem blinkCount_passed_monotone (p : Props) (dateNow dateNow' : Q) (s0 : Session)
    (before after : list Event) :
  let a := run p before (resetSession dateNow s0) in
  let b := run p after a in
  (blinkCount (state a) <= blinkCount (state b))%nat /\
  Bool.le (livenessPassed (state a)) (livenessPassed (state b)) /\
  (blinkCount (state (resetSession dateNow' b)) = 0%nat /\
   livenessPassed (state (resetSession dateNow' b)) = false) /\
  (forall failure : option string,
      blinkCount (state (start dateNow' failure b)) = 0%nat /\
      livenessPassed (state (start dateNow' failure b)) = false) /\
  (blinkCount (state (stop b)) = blinkCount (state b) /\
   livenessPassed (state (stop b)) = livenessPassed (state b)).
Proof.
  cbv zeta.
  assert (Hreset : blinkCountRef (refs (resetSession dateNow s0))
                   = blinkCount (state (resetSession dateNow s0))) by reflexivity.
  destruct (run_monotone p before _ Hreset) as (Hsync & _).
  destruct (run_monotone p after _ Hsync) as (_ & Hcount & Hpassed & _).
  split; [exact Hcount|]. split; [exact Hpassed|].
  split; [split; reflexivity|]. split.
  - intros [message|]; split; reflexivity.
  - split; reflexivity.
Qed.

(** *** The turn detector *)



(** *** The pass decision of the effects *)

Lemma finalGuard_passed (s : Session) :
  livenessPassed (state (finalGuard s))
  = livenessPassed (state s)
    || (turnedLeft (state s) && turnedRight (state s) && (2 <=? blinkCount (state s))%nat).
Proof.
  unfold finalGuard. open_session s.
  destruct livenessPassed0, turnedLeft0, turnedRight0, (2 <=? blinkCount0)%nat;
    reflexivity.
Qed.

Lemma onResults_check_no_turn (rd : State) (n : nat) (s : Session) :
  turnDetected rd = None -> onResults_check rd n s = s.
Proof.
  intro H. unfold onResults_check. rewrite H. cbn [truthy].
  rewrite andb_false_r. reflexivity.
Qed.

Lemma onResults_yaw_no_flags (p : Props) (rd : State) (now yawSm : Q) (n : nat)
    (s : Session) :
  turnedLeft rd = false -> turnedRight rd = false ->
  livenessPassed (state (onResults_yaw p rd now yawSm n s)) = livenessPassed (state s).
Proof.
  intros Hl Hr. unfold onResults_yaw, onResults_turn. rewrite Hl, Hr.
  destruct (Qgeb (Qabs yawSm) (yawAbsThreshold p)); [|reflexivity].
  destruct (yawBeyondSinceRef (refs s)) as [since|]; [|reflexivity].
  destruct (Qeq_bool since 0); [reflexivity|].
  destruct (Qgeb (now - since) (yawHoldMinMs p)); [|reflexivity].
  destruct (Qgtb yawSm 0), (negb (truthy (turnDetected rd)));
    rewrite ?andb_false_r; cbn [andb]; reflexivity.
Qed.

(** When the captured render has no turn recorded, as the render of the
    mount has, neither frame-local check of [onResults] fires and the pass
    decision of the frame is the final guard's: both directions and two
    blinks, on the values the frame has produced. *)
Lemma step_passed_no_captured_turn (p : Props) (rd : State) (lm0 : option Landmarks)
    (now : Q) (s : Session) :
  turnDetected rd = None -> turnedLeft rd = false -> turnedRight rd = false ->
  livenessPassed (state (step p rd lm0 now s))
  = livenessPassed (state s)
    || (turnedLeft (state (step p rd lm0 now s))
        && turnedRight (state (step p rd lm0 now s))
        && (2 <=? blinkCount (state (step p rd lm0 now s)))%nat).
Proof.
  intros Hd Hl Hr.
  assert (Hcb : livenessPassed (state (onResults p rd lm0 now s))
                = livenessPassed (state s)).
  { destruct lm0 as [lm|]; [|unfold onResults, updateDebug; open_session s; reflexivity].
    destruct (earFromLandmarks lm 159 145 33 133) as [earL|] eqn:HL;
      [destruct (earFromLandmarks lm 386 374 263 362) as [earR|] eqn:HR|];
      [ | unfold onResults; rewrite HL, HR; open_session s; reflexivity
        | unfold onResults; rewrite HL; open_session s; reflexivity ].
    rewrite (onResults_face p rd lm earL earR now s HL HR). cbv zeta.
    destruct (onResults_blink_shape p rd now (earAvgOf s earL earR)
                (smoothedEars s earL earR)) as (w & c & k & nr & nc & E & _).
    destruct (onResults_blink p rd now (earAvgOf s earL earR)
                (smoothedEars s earL earR)) as [s2 n].
    cbn [fst snd] in *. subst s2.
    destruct (yawProxy lm) as [yawRaw|]; [|open_session s; reflexivity].
    rewrite (onResults_check_no_turn rd n _ Hd).
    match goal with
    | |- context [onResults_yaw p rd now ?y n ?x] =>
        transitivity (livenessPassed (state (onResults_yaw p rd now y n x)));
        [ generalize (onResults_yaw p rd now y n x); intro z; open_session z; reflexivity
        | rewrite (onResults_yaw_no_flags p rd now y n x Hl Hr);
          open_session s; reflexivity ]
    end. }
  unfold step. rewrite <- Hcb.
  generalize (onResults p rd lm0 now s). intro x.
  destruct (runEffects_shape x) as (b & E & _).
  assert (Hp : livenessPassed (state (runEffects x)) = livenessPassed (state (finalGuard x)))
    by (unfold runEffects, syncBlinkCountRef; generalize (finalGuard x); intro z;
        open_session z; reflexivity).
  rewrite Hp, finalGuard_passed, E. open_session x. reflexivity.
Qed.


(** *** Frames without a usable face *)

Lemma settled_inv (s : Session) :
  settled s ->
  blinkCountRef (refs s) = blinkCount (state s) /\
  (negb (livenessPassed (state s)) && turnedLeft (state s) && turnedRight (state s)
   && (2 <=? blinkCount (state s))%nat) = false.
Proof.
  unfold settled, runEffects, syncBlinkCountRef, finalGuard.
  open_session s.
  destruct livenessPassed0; cbn [negb andb].
  - intro H. injection H as H. auto.
  - destruct (turnedLeft0 && turnedRight0 && (2 <=? blinkCount0)%nat).
    + intro H. discriminate H.
    + intro H. injection H as H. auto.
Qed.

(** C5 (amended).  A frame without a face clears [eyesClosedSinceRef] and
    leaves [eyesWereClosedRef] as it is.  Every frame keeps
    [closedSinceOnlyWhenClosed]: the start of the closure is recorded only
    while the detector is closed.  A closed detector without a recorded
    start gets a closure of length zero when the eyes reopen, so with a
    positive [earCloseMinMs] no blink is counted. *)
Theorem noFace_keeps_closed (p : Props) (rd : State) (lm0 : option Landmarks) (now : Q)
    (s : Session) :
  closedSinceOnlyWhenClosed s ->
  closedSinceOnlyWhenClosed (step p rd lm0 now s) /\
  eyesClosedSinceRef (refs (step p rd None now s)) = None /\
  eyesWereClosedRef (refs (step p rd None now s)) = eyesWereClosedRef (refs s) /\
  (forall (lm : Landmarks) (earL earR : Q),
      earFromLandmarks lm 159 145 33 133 = Some earL ->
      earFromLandmarks lm 386 374 263 362 = Some earR ->
      eyesWereClosedRef (refs s) = true ->
      eyesClosedSinceRef (refs s) = None ->
      0 < earCloseMinMs p ->
      blinkCount (state (step p rd (Some lm) now s)) = blinkCount (state s)).
Proof.
  intro Hinv.
  assert (Hview : forall x : Session,
             closedSinceOnlyWhenClosed x <->
             (closedSinceTimestamp (blinkStateOf x) <> None ->
              isClosed (blinkStateOf x) = true)) by (intro x; reflexivity).
  assert (HnoFace : forall x : Session,
             blinkStateOf (step p rd None now x)
             = mkBlinkState (eyesWereClosedRef (refs x)) None
                            (Some (lastBlinkAtRef (refs x))) (blinkCount (state x))).
  { intro x. unfold step. rewrite blinkStateOf_runEffects.
    unfold onResults, updateDebug. open_session x. reflexivity. }
  split; [|split; [|split]].
  - apply Hview. destruct lm0 as [lm|].
    + destruct (earFromLandmarks lm 159 145 33 133) as [earL|] eqn:HL;
        [destruct (earFromLandmarks lm 386 374 263 362) as [earR|] eqn:HR|].
      * rewrite (step_face_blinkState p rd lm earL earR now s HL HR).
        revert Hinv. unfold closedSinceOnlyWhenClosed.
        generalize (earAvgOf s earL earR). intro earAvg.
        open_session s. unfold onResults_blink, smoothedEars, blinkStateOf. fields.
        intro Hinv.
        repeat match goal with
               | |- context [if ?c then _ else _] => destruct c
               end;
          cbn [fst isClosed closedSinceTimestamp]; fields; auto; congruence.
      * unfold step. rewrite blinkStateOf_runEffects. unfold onResults.
        rewrite HL, HR. open_session s. exact Hinv.
      * unfold step. rewrite blinkStateOf_runEffects. unfold onResults.
        rewrite HL. open_session s. exact Hinv.
    + rewrite HnoFace. cbn [closedSinceTimestamp]. congruence.
  - exact (f_equal closedSinceTimestamp (HnoFace s)).
  - exact (f_equal isClosed (HnoFace s)).
  - intros lm earL earR HL HR Hclosed Hnone Hmin.
    change (blinkCountOf (blinkStateOf (step p rd (Some lm) now s))
            = blinkCountOf (blinkStateOf s)).
    rewrite (step_face_blinkState p rd lm earL earR now s HL HR).
    generalize (earAvgOf s earL earR). intro earAvg.
    assert (Hshort : Qgeb (now - now) (earCloseMinMs p) = false)
      by (apply Qgeb_false; lra).
    revert Hclosed Hnone.
    open_session s. unfold onResults_blink, smoothedEars, blinkStateOf. fields.
    intros -> ->. rewrite Hshort.
    destruct (Qltb earAvg (earThreshold p + 0.03)); reflexivity.
Qed.

(** C6 (amended).  A frame without a landmark set clears the two timers,
    keeps the three smoothers' values, the blink detector's state, the count,
    the turn flags and the pass flag, and sets the three smoothed values
    shown in the snapshot to 0. *)
Theorem noFace_frame_effect (p : Props) (rd : State) (now : Q) (s : Session) :
  settled s ->
  let s' := step p rd None now s in
  (eyesClosedSinceRef (refs s') = None /\ yawBeyondSinceRef (refs s') = None) /\
  (earLeftEMARef (refs s') = earLeftEMARef (refs s) /\
   earRightEMARef (refs s') = earRightEMARef (refs s) /\
   yawEMARef (refs s') = yawEMARef (refs s)) /\
  (eyesWereClosedRef (refs s') = eyesWereClosedRef (refs s) /\
   lastBlinkAtRef (refs s') = lastBlinkAtRef (refs s)) /\
  (blinkCount (state s') = blinkCount (state s) /\
   turnDetected (state s') = turnDetected (state s) /\
   turnedLeft (state s') = turnedLeft (state s) /\
   turnedRight (state s') = turnedRight (state s) /\
   livenessPassed (state s') = livenessPassed (state s)) /\
  (snap_leftEAR (snapshot s') == 0 /\
   snap_rightEAR (snapshot s') == 0 /\
   snap_yawDev (snapshot s') == 0).
Proof.
  intros Hsettled. cbv zeta.
  destruct (settled_inv s Hsettled) as [Hsync Hguard].
  unfold step, runEffects, syncBlinkCountRef, finalGuard, onResults, updateDebug, snapshot.
  revert Hsync Hguard. open_session s. intros Hsync Hguard. rewrite Hguard. fields.
  repeat split; reflexivity.
Qed.

(** C9 (amended).  A landmark set on which an extractor raises does not
    stop the session, and nothing is handed back to the caller.  When an EAR
    extractor raises, the frame leaves both timers, the detectors, the
    smoothers, the count, the flags and the snapshot values as they were:
    the timers are not cleared.  When the yaw extractor raises, the frame
    leaves the turn detector, its timer and its smoother, and the snapshot
    values as they were. *)
Theorem malformed_frame_caught (p : Props) (rd : State) (lm : Landmarks) (now : Q)
    (s : Session) :
  malformed lm ->
  let s' := step p rd (Some lm) now s in
  (earFails lm ->
     s' = runEffects (assign (put_lastFacePresentRef true)
                        (assign (put_frameCountRef (frameCountRef (refs s) + 1)%nat) s)) /\
     blinkStateOf s' = blinkStateOf s /\
     turnStateOf s' = turnStateOf s /\
     earLeftEMARef (refs s') = earLeftEMARef (refs s) /\
     earRightEMARef (refs s') = earRightEMARef (refs s)) /\
  (yawProxy lm = None ->
     turnStateOf s' = turnStateOf s /\
     yawEMARef (refs s') = yawEMARef (refs s)) /\
  leftEAR (state s') = leftEAR (state s) /\
  rightEAR (state s') = rightEAR (state s) /\
  yawDev (state s') = yawDev (state s).
Proof.
  intros Hbad. cbv zeta.
  assert (Hears : earFails lm ->
                  onResults p rd (Some lm) now s
                  = assign (put_lastFacePresentRef true)
                      (assign (put_frameCountRef (frameCountRef (refs s) + 1)%nat) s)).
  { intros [HL|HR]; unfold onResults.
    - rewrite HL. reflexivity.
    - rewrite HR. destruct (earFromLandmarks lm 159 145 33 133); reflexivity. }
  assert (Hyaw : yawProxy lm = None ->
                 exists (w : bool) (c : option Q) (k : Q) (nr nc fc : nat)
                        (l r : option Q) (f : bool),
                   onResults p rd (Some lm) now s
                   = assign (put_lastBlinkAtRef k)
                       (assign (put_blinkCountRef nr)
                          (setState (setBlinkCount nc)
                             (assign (put_eyesClosedSinceRef c)
                                (assign (put_eyesWereClosedRef w)
                                   (assign (put_earRightEMARef r)
                                      (assign (put_earLeftEMARef l)
                                         (assign (put_lastFacePresentRef f)
                                            (assign (put_frameCountRef fc) s))))))))).
  { intro HY.
    destruct (earFromLandmarks lm 159 145 33 133) as [earL|] eqn:HL;
      [destruct (earFromLandmarks lm 386 374 263 362) as [earR|] eqn:HR|].
    - rewrite (onResults_face p rd lm earL earR now s HL HR), HY. cbv zeta.
      destruct (onResults_blink_shape p rd now (earAvgOf s earL earR)
                  (smoothedEars s earL earR)) as (w & c & k & nr & nc & -> & _).
      unfold smoothedEars. do 9 eexists. reflexivity.
    - rewrite Hears by (right; exact HR).
      exists (eyesWereClosedRef (refs s)), (eyesClosedSinceRef (refs s)),
        (lastBlinkAtRef (refs s)), (blinkCountRef (refs s)), (blinkCount (state s)),
        (frameCountRef (refs s) + 1)%nat, (earLeftEMARef (refs s)),
        (earRightEMARef (refs s)), true.
      open_session s. reflexivity.
    - rewrite Hears by (left; exact HL).
      exists (eyesWereClosedRef (refs s)), (eyesClosedSinceRef (refs s)),
        (lastBlinkAtRef (refs s)), (blinkCountRef (refs s)), (blinkCount (state s)),
        (frameCountRef (refs s) + 1)%nat, (earLeftEMARef (refs s)),
        (earRightEMARef (refs s)), true.
      open_session s. reflexivity. }
  split; [|split].
  - intro Hf. unfold step. rewrite (Hears Hf).
    split; [reflexivity|].
    destruct (runEffects_shape
                (assign (put_lastFacePresentRef true)
                   (assign (put_frameCountRef (frameCountRef (refs s) + 1)%nat) s)))
      as (b & -> & _).
    open_session s. repeat split; reflexivity.
  - intro HY. unfold step. destruct (Hyaw HY) as (w & c & k & nr & nc & fc & l & r & f & ->).
    match goal with
    | |- context [runEffects ?x] => destruct (runEffects_shape x) as (b & -> & _)
    end.
    open_session s. split; reflexivity.
  - unfold step.
    match goal with
    | |- context [runEffects ?x] => destruct (runEffects_shape x) as (b & -> & _)
    end.
    destruct Hbad as [Hf|HY].
    + rewrite (Hears Hf). open_session s. repeat split; reflexivity.
    + destruct (Hyaw HY) as (w & c & k & nr & nc & fc & l & r & f & ->).
      open_session s. repeat split; reflexivity.
Qed.

End Properties.

(** ** Instances *)

Lemma ema_update_witness :
  ema None 0.3 0.35 = 0.3 /\
  ema (Some 0.1) 0.3 0.35 = 0.35 * 0.3 + (1 - 0.35) * 0.1 /\
  0.1 <= ema (Some 0.1) 0.3 0.35 <= 0.3.
Proof.
  assert (Halpha : 0 < 0.35 /\ 0.35 <= 1) by (split; Qdecide).
  destruct (ema_update 0.3 0.35 Halpha) as (Hnone & Hsome & Hup & _).
  split; [exact Hnone|]. split; [apply Hsome|]. apply Hup. Qdecide.
Defined.

Lemma blink_exit_transition_witness :
  let s := play openThenClosed in
  let s' := processFrame defaultProps (face 0.5 0.5 0) 2180 s in
  blinkCount (state s') = 1%nat /\ lastBlinkAtRef (refs s') = 2180.
Proof.
  cbv zeta.
  destruct (blink_exit_transition (G:=sampleGeometry) defaultProps firstRender
              (mkSample (Some 0.5) (Some 0.5) (Some 0)) 0.5 0.5 2180 2000
              (play openThenClosed)
              eq_refl eq_refl eq_refl eq_refl eq_refl) as [Hexit _].
  destruct Hexit as (_ & _ & Hcount & _); [Qdecide|].
  replace 1%nat with (blinkCount (state (play openThenClosed)) + 1)%nat by reflexivity.
  apply Hcount. split; Qdecide.
Defined.

Lemma blink_constants_fixed_witness :
  let s := play quickSecondClosure in
  let s' := processFrame defaultProps (face 0.5 0.5 0) 3350 s in
  blinkCount (state s) = 2%nat /\ blinkCount (state s') = 2%nat.
Proof.
  cbv zeta. split; [reflexivity|].
  destruct (blink_constants_fixed (G:=sampleGeometry) defaultProps firstRender
              (mkSample (Some 0.5) (Some 0.5) (Some 0)) 0.5 0.5 3350
              (play quickSecondClosure) eq_refl eq_refl eq_refl) as [E _].
  apply (f_equal blinkCountOf) in E.
  etransitivity; [exact E|]. vm_compute. reflexivity.
Defined.

Lemma first_blink_in_refractory_witness :
  blinkCount (state (processFrame defaultProps (face 0.5 0.5 0) 200 (play earlyClosure)))
  = 0%nat /\
  blinkCount (state (processFrame defaultProps (face 0.5 0.5 0) 1200 (play laterClosure)))
  = 1%nat.
Proof.
  split; [|vm_compute; reflexivity].
  apply (first_blink_in_refractory (G:=sampleGeometry) defaultProps firstRender
           (mkSample (Some 0.5) (Some 0.5) (Some 0)) 0.5 0.5 200 10
           (play earlyClosure)); try reflexivity; Qdecide.
Defined.



Lemma noFace_keeps_closed_witness :
  let s' := processFrame defaultProps None 2100 (play openThenClosed) in
  eyesClosedSinceRef (refs s') = None /\ eyesWereClosedRef (refs s') = true.
Proof.
  cbv zeta.
  destruct (noFace_keeps_closed (G:=sampleGeometry) defaultProps firstRender None 2100
              (play openThenClosed)) as (_ & Hsince & Hclosed & _).
  - intros _. reflexivity.
  - split; [exact Hsince | exact Hclosed].
Defined.

Lemma noFace_frame_effect_witness :
  let s := play twoBlinks in
  let s' := processFrame defaultProps None 3250 s in
  blinkCount (state s') = 2%nat /\
  earLeftEMARef (refs s') = earLeftEMARef (refs s) /\
  snap_leftEAR (snapshot s') == 0.
Proof.
  cbv zeta.
  destruct (noFace_frame_effect (G:=sampleGeometry) defaultProps firstRender 3250
              (play twoBlinks))
    as (_ & (Hl & _) & _ & (Hc & _) & (Hz & _)).
  - vm_compute. reflexivity.
  - split; [etransitivity; [exact Hc | reflexivity]|].
    split; [exact Hl | exact Hz].
Defined.

Lemma malformed_frame_caught_witness :
  let s := play (twoBlinks ++ turnRightStart) in
  let s' := processFrame defaultProps (Some (noEyes 1)) 3500 s in
  let c := play openThenClosed in
  let c' := processFrame defaultProps (Some (noCheeks 0.5 0.5)) 2180 c in
  (yawBeyondSinceRef (refs s') = Some 3400 /\ blinkCount (state s') = 2%nat) /\
  (turnStateOf c' = turnStateOf c /\ blinkCount (state c') = 1%nat).
Proof.
  cbv zeta. split.
  - destruct (malformed_frame_caught (G:=sampleGeometry) defaultProps
                firstRender (noEyes 1) 3500 (play (twoBlinks ++ turnRightStart)))
      as (Hears & _).
    + left. left. reflexivity.
    + destruct Hears as (_ & Hb & Ht & _); [left; reflexivity|].
      split.
      * exact (f_equal beyondSinceTimestamp Ht).
      * exact (f_equal blinkCountOf Hb).
  - destruct (malformed_frame_caught (G:=sampleGeometry) defaultProps
                firstRender (noCheeks 0.5 0.5) 2180 (play openThenClosed))
      as (_ & Hyaw & _).
    + right. reflexivity.
    + destruct Hyaw as [Ht _]; [reflexivity|].
      split; [exact Ht | vm_compute; reflexivity].
Defined.

(** ** Counterexamples *)


(** C5.  The face is lost while the eyes are closed: the detector is still
    closed after the frame, without a recorded start. *)
Lemma stated_noFace_blink_fails : ~ stated_noFace_blink.
Proof.
  intros [H _].
  destruct (H defaultProps firstRender 2100 (play openThenClosed))
    as [_ Hclosed].
  vm_compute in Hclosed. discriminate Hclosed.
Qed.

(** C6.  The snapshot shows a left EAR of 0.252 before the frame without a
    face and of 0 after it. *)
Lemma stated_noFace_frame_fails : ~ stated_noFace_frame.
Proof.
  intro H.
  destruct (H defaultProps firstRender 3250 (play twoBlinks))
    as (_ & _ & _ & _ & _ & Hsnap).
  - vm_compute. reflexivity.
  - apply (f_equal (fun x => Qnum (snap_leftEAR x))) in Hsnap.
    vm_compute in Hsnap. discriminate Hsnap.
Qed.

(** C8.  A caller asking for a refractory period of 100 ms: a closure of
    140 ms that ends 150 ms after the last blink is counted by the specified
    detector and dropped by the component. *)
Lemma stated_blink_config_fails : ~ stated_blink_config.
Proof.
  intro H.
  pose proof (H shortRefractory firstRender
                (mkSample (Some 0.5) (Some 0.5) (Some 0)) 0.5 0.5 3350
                (play quickSecondClosure) eq_refl eq_refl eq_refl) as E.
  apply (f_equal blinkCountOf) in E.
  vm_compute in E. discriminate E.
Qed.

(** C9.  The eye landmarks are missing while a turn is being held: the
    hold timer started at 3400 is still running after the frame, where a
    frame without a face would have cleared it. *)
Lemma stated_malformed_fails : ~ stated_malformed.
Proof.
  intro H.
  destruct (H defaultProps firstRender (noEyes 1) 3500
              (play (twoBlinks ++ turnRightStart))) as (_ & Hturn & _).
  - left. left. reflexivity.
  - vm_compute in Hturn. discriminate Hturn.
Qed.

(** ** Further properties of the component *)

Section FrameProperties.

Context {G : GeometryLib}.

(** *** Helpers *)



(** What a frame does to the blink detector, for every kind of frame. *)
Lemma step_blink_cases (p : Props) (rd : State) (lm0 : option Landmarks) (now : Q)
    (s : Session) :
  blinkCountRef (refs s) = blinkCount (state s) ->
  let b := blinkStateOf s in
  let b' := blinkStateOf (step p rd lm0 now s) in
  (isClosed b' = isClosed b /\ blinkCountOf b' = blinkCountOf b /\
   lastBlinkTimestamp b' = lastBlinkTimestamp b) \/
  (isClosed b = false /\ isClosed b' = true /\ closedSinceTimestamp b' = Some now /\
   blinkCountOf b' = blinkCountOf b /\ lastBlinkTimestamp b' = lastBlinkTimestamp b) \/
  (isClosed b = true /\ isClosed b' = false /\ closedSinceTimestamp b' = None /\
   blinkCountOf b' = blinkCountOf b /\ lastBlinkTimestamp b' = lastBlinkTimestamp b) \/
  (isClosed b = true /\ isClosed b' = false /\ closedSinceTimestamp b' = None /\
   blinkCountOf b' = (blinkCountOf b + 1)%nat /\ lastBlinkTimestamp b' = Some now /\
   250 <= now - lastBlinkAtRef (refs s) /\
   earCloseMinMs p <= now - nullish (eyesClosedSinceRef (refs s)) now).
Proof.
  intro Hsync. cbv zeta.
  assert (Hsame : forall x : Session,
             isClosed (blinkStateOf x) = isClosed (blinkStateOf s) ->
             blinkCountOf (blinkStateOf x) = blinkCountOf (blinkStateOf s) ->
             lastBlinkTimestamp (blinkStateOf x) = lastBlinkTimestamp (blinkStateOf s) ->
             blinkStateOf (step p rd lm0 now s) = blinkStateOf x ->
             isClosed (blinkStateOf (step p rd lm0 now s)) = isClosed (blinkStateOf s) /\
             blinkCountOf (blinkStateOf (step p rd lm0 now s))
             = blinkCountOf (blinkStateOf s) /\
             lastBlinkTimestamp (blinkStateOf (step p rd lm0 now s))
             = lastBlinkTimestamp (blinkStateOf s))
    by (intros x H1 H2 H3 ->; auto).
  destruct lm0 as [lm|].
  - destruct (earFromLandmarks lm 159 145 33 133) as [earL|] eqn:HL;
      [destruct (earFromLandmarks lm 386 374 263 362) as [earR|] eqn:HR|].
    + rewrite (step_blinkState p rd lm earL earR now s HL HR Hsync).
      generalize (earAvgOf s earL earR). intro earAvg. clear Hsame.
      unfold specBlink, blinkStateOf.
      cbn [isClosed closedSinceTimestamp lastBlinkTimestamp blinkCountOf configOf
           closeThreshold margin minCloseDurationMs refractoryMs].
      destruct (eyesWereClosedRef (refs s)).
      * destruct (Qgeb earAvg (earThreshold p + 0.03)); [|left; auto].
        destruct (Qgeb (now - nullish (eyesClosedSinceRef (refs s)) now) (earCloseMinMs p))
          eqn:Hlen;
          [destruct (Qgeb (now - lastBlinkAtRef (refs s)) 250) eqn:Hrefr|];
          cbn [andb isClosed closedSinceTimestamp lastBlinkTimestamp blinkCountOf].
        -- right. right. right. apply Qgeb_true in Hlen, Hrefr. repeat split; auto.
        -- right. right. left. auto.
        -- right. right. left. auto.
      * destruct (Qltb earAvg (earThreshold p));
          cbn [isClosed closedSinceTimestamp lastBlinkTimestamp blinkCountOf].
        -- right. left. auto.
        -- left. auto.
    + left. apply (Hsame s); try reflexivity.
      unfold step. rewrite blinkStateOf_runEffects. unfold onResults.
      rewrite HL, HR. open_session s. reflexivity.
    + left. apply (Hsame s); try reflexivity.
      unfold step. rewrite blinkStateOf_runEffects. unfold onResults.
      rewrite HL. open_session s. reflexivity.
  - left.
    apply (Hsame (assign (put_eyesClosedSinceRef None) s)); try reflexivity.
    unfold step. rewrite blinkStateOf_runEffects. unfold onResults, updateDebug.
    open_session s. reflexivity.
Qed.

(** What a frame leaves alone: the lifecycle fields; and what it always
    does: count the frame and note whether it had a face. *)
Lemma step_bookkeeping (p : Props) (rd : State) (lm0 : option Landmarks) (now : Q)
    (s : Session) :
  frameCountRef (refs (step p rd lm0 now s)) = (frameCountRef (refs s) + 1)%nat /\
  lastFacePresentRef (refs (step p rd lm0 now s)) = truthy lm0 /\
  isRunning (state (step p rd lm0 now s)) = isRunning (state s) /\
  permissionError (state (step p rd lm0 now s)) = permissionError (state s) /\
  startedAtRef (refs (step p rd lm0 now s)) = startedAtRef (refs s).
Proof.
  unfold step.
  destruct (runEffects_shape (onResults p rd lm0 now s)) as (b & -> & _).
  destruct lm0 as [lm|].
  - destruct (earFromLandmarks lm 159 145 33 133) as [earL|] eqn:HL;
      [destruct (earFromLandmarks lm 386 374 263 362) as [earR|] eqn:HR|].
    + rewrite (onResults_face p rd lm earL earR now s HL HR). cbv zeta.
      destruct (onResults_blink_shape p rd now (earAvgOf s earL earR)
                  (smoothedEars s earL earR)) as (w & c & k & nr & nc & E & _).
      destruct (onResults_blink p rd now (earAvgOf s earL earR)
                  (smoothedEars s earL earR)) as [s2 n].
      cbn [fst snd] in *. subst s2.
      destruct (yawProxy lm) as [yawRaw|].
      * match goal with
        | |- context [onResults_check rd n ?x] =>
            destruct (onResults_check_shape rd n x) as (b1 & -> & _)
        end.
        match goal with
        | |- context [onResults_yaw p rd now ?y n ?x] =>
            destruct (onResults_yaw_shape p rd now y n x)
              as (t & d & l & r & b2 & -> & _)
        end.
        open_session s. unfold updateDebug, smoothedEars. fields. auto.
      * open_session s. unfold smoothedEars. fields. auto.
    + unfold onResults. rewrite HL, HR. open_session s. auto.
    + unfold onResults. rewrite HL. open_session s. auto.
  - unfold onResults, updateDebug. open_session s. auto.
Qed.

Lemma toFixed3_close (x : Q) : Qabs (toFixed3 x - x) <= 1 # 2000.
Proof.
  assert (Hr : forall y : Q,
             Qabs (inject_Z (Qfloor (y * 1000 + (1 # 2))) / 1000 - y) <= 1 # 2000).
  { intro y.
    pose proof (Qfloor_le (y * 1000 + (1 # 2))) as Hlo.
    pose proof (Qlt_floor (y * 1000 + (1 # 2))) as Hhi.
    rewrite inject_Z_plus in Hhi.
    set (z := inject_Z (Qfloor (y * 1000 + (1 # 2)))) in *.
    change (inject_Z 1) with 1 in Hhi.
    apply Qabs_Qle_condition.
    unfold Qdiv. change (/ 1000) with (1 # 1000).
    split; lra. }
  unfold toFixed3. destruct (Qltb x 0).
  - specialize (Hr (- x)).
    apply Qabs_Qle_condition in Hr. apply Qabs_Qle_condition.
    split; lra.
  - apply Hr.
Qed.

Lemma run_blink_budget (p : Props) (evs : list Event) :
  forall s : Session,
    blinkCountRef (refs s) = blinkCount (state s) ->
    (2 * blinkCount (state (run p evs s))
     + (if eyesWereClosedRef (refs (run p evs s)) then 1 else 0)
     <= 2 * blinkCount (state s) + (if eyesWereClosedRef (refs s) then 1 else 0)
        + List.length evs)%nat.
Proof.
  induction evs as [|[[rd lm0] now] evs IH]; intros s Hsync; cbn [run List.length].
  - lia.
  - destruct (step_blinkCount_monotone p rd lm0 now s Hsync) as [Hsync' _].
    specialize (IH _ Hsync').
    pose proof (step_blink_cases p rd lm0 now s Hsync) as Hc. cbv zeta in Hc.
    unfold blinkStateOf in Hc.
    cbn [isClosed closedSinceTimestamp lastBlinkTimestamp blinkCountOf] in Hc.
    destruct Hc as [(Hc1 & Hc2 & _) | [(Hc1 & Hc2 & _ & Hc3 & _)
                   | [(Hc1 & Hc2 & _ & Hc3 & _) | (Hc1 & Hc2 & _ & Hc3 & _)]]];
      rewrite ?Hc1, ?Hc2, ?Hc3 in *; lia.
Qed.

Lemma run_bookkeeping (p : Props) (evs : list Event) :
  forall s : Session,
    frameCountRef (refs (run p evs s)) = (frameCountRef (refs s) + List.length evs)%nat /\
    isRunning (state (run p evs s)) = isRunning (state s) /\
    permissionError (state (run p evs s)) = permissionError (state s) /\
    startedAtRef (refs (run p evs s)) = startedAtRef (refs s).
Proof.
  induction evs as [|[[rd lm0] now] evs IH]; intro s; cbn [run List.length].
  - repeat split. lia.
  - destruct (step_bookkeeping p rd lm0 now s) as (Hf & _ & Hr & Hp & Hs).
    destruct (IH (step p rd lm0 now s)) as (Hf' & Hr' & Hp' & Hs').
    repeat split; try congruence. lia.
Qed.

(** *** The pass decision *)



(** *** The blink detector *)

(** X3.  An open detector closes, and records the clock reading, exactly
    when the averaged smoothed EAR is below [earThreshold]; it counts
    nothing on that frame.  At or above the threshold its state does not
    change. *)
Theorem blink_enter_transition (p : Props) (rd : State) (lm : Landmarks)
    (earL earR now : Q) (s : Session) :
  earFromLandmarks lm 159 145 33 133 = Some earL ->
  earFromLandmarks lm 386 374 263 362 = Some earR ->
  eyesWereClosedRef (refs s) = false ->
  blinkCountRef (refs s) = blinkCount (state s) ->
  let s' := step p rd (Some lm) now s in
  (earAvgOf s earL earR < earThreshold p ->
     eyesWereClosedRef (refs s') = true /\
     eyesClosedSinceRef (refs s') = Some now /\
     blinkCount (state s') = blinkCount (state s) /\
     lastBlinkAtRef (refs s') = lastBlinkAtRef (refs s)) /\
  (earThreshold p <= earAvgOf s earL earR -> blinkStateOf s' = blinkStateOf s).
Proof.
  intros HL HR Hopen Hsync. cbv zeta.
  pose proof (step_blinkState p rd lm earL earR now s HL HR Hsync) as E.
  revert E. generalize (earAvgOf s earL earR) (step p rd (Some lm) now s).
  intros earAvg s' E.
  unfold specBlink in E. unfold blinkStateOf at 2 3 in E.
  cbn [isClosed closedSinceTimestamp lastBlinkTimestamp blinkCountOf configOf
       closeThreshold] in E.
  rewrite Hopen in E.
  split.
  - intro Hlt. apply Qltb_true in Hlt. rewrite Hlt in E.
    injection E as -> -> -> ->. auto.
  - intro Hge. apply Qltb_false in Hge. rewrite Hge in E.
    rewrite E. unfold blinkStateOf. rewrite Hopen. reflexivity.
Qed.

(** X4.  A frame of any kind raises the blink count by one or not at all.
    When it raises it, the detector was closed and is open afterwards, the
    closure lasted [earCloseMinMs] or more, the clock reading is 250 ms or
    more past the last counted blink and becomes the new last-blink time:
    no two counted blinks are less than 250 ms apart. *)
Theorem blink_count_step (p : Props) (rd : State) (lm0 : option Landmarks) (now : Q)
    (s : Session) :
  blinkCountRef (refs s) = blinkCount (state s) ->
  let s' := step p rd lm0 now s in
  (blinkCount (state s') = blinkCount (state s) /\
   lastBlinkAtRef (refs s') = lastBlinkAtRef (refs s)) \/
  (blinkCount (state s') = (blinkCount (state s) + 1)%nat /\
   lastBlinkAtRef (refs s') = now /\
   250 <= now - lastBlinkAtRef (refs s) /\
   earCloseMinMs p <= now - nullish (eyesClosedSinceRef (refs s)) now /\
   eyesWereClosedRef (refs s) = true /\
   eyesWereClosedRef (refs s') = false).
Proof.
  intro Hsync. cbv zeta.
  pose proof (step_blink_cases p rd lm0 now s Hsync) as Hc. cbv zeta in Hc.
  unfold blinkStateOf in Hc.
  cbn [isClosed closedSinceTimestamp lastBlinkTimestamp blinkCountOf] in Hc.
  destruct Hc as [(_ & Hc & [= Hl]) | [(_ & _ & _ & Hc & [= Hl])
                 | [(_ & _ & _ & Hc & [= Hl]) | (H1 & H2 & _ & Hc & [= Hl] & Hr & Hm)]]];
    [left | left | left | right]; auto 10.
Qed.

(** X5.  In a session, twice the blink count, plus one while the detector
    is closed, never exceeds the number of frames delivered since the
    reset: a blink takes a frame to close and a frame to reopen. *)
Theorem blinks_bounded_by_frames (p : Props) (dateNow : Q) (s0 : Session)
    (evs : list Event) :
  let s := run p evs (resetSession dateNow s0) in
  (2 * blinkCount (state s) + (if eyesWereClosedRef (refs s) then 1 else 0)
   <= frameCountRef (refs s))%nat /\
  frameCountRef (refs s) = List.length evs.
Proof.
  cbv zeta.
  pose proof (run_blink_budget p evs (resetSession dateNow s0) eq_refl) as Hb.
  destruct (run_bookkeeping p evs (resetSession dateNow s0)) as (Hf & _).
  cbn in Hb, Hf. split; [rewrite Hf; exact Hb | exact Hf].
Qed.

(** *** The turn detector *)

(** X6.  The turn timer: a smoothed yaw below the threshold clears it; a
    yaw at or beyond the threshold starts it at the clock reading when it is
    not running; while it runs and has run for less than [yawHoldMinMs]
    nothing changes.  None of the three touches the recorded direction or
    the two flags. *)
Theorem turn_timer_transitions (p : Props) (rd : State) (lm : Landmarks)
    (earL earR yawRaw now : Q) (s : Session) :
  earFromLandmarks lm 159 145 33 133 = Some earL ->
  earFromLandmarks lm 386 374 263 362 = Some earR ->
  yawProxy lm = Some yawRaw ->
  let s' := step p rd (Some lm) now s in
  (Qabs (smoothedYaw s yawRaw) < yawAbsThreshold p ->
     turnStateOf s'
     = mkTurnState None (turnDetected (state s)) (turnedLeft (state s))
                   (turnedRight (state s))) /\
  (yawAbsThreshold p <= Qabs (smoothedYaw s yawRaw) ->
     yawBeyondSinceRef (refs s) = None ->
     turnStateOf s'
     = mkTurnState (Some now) (turnDetected (state s)) (turnedLeft (state s))
                   (turnedRight (state s))) /\
  (yawAbsThreshold p <= Qabs (smoothedYaw s yawRaw) ->
     forall since : Q,
       yawBeyondSinceRef (refs s) = Some since ->
       ~ since == 0 ->
       now - since < yawHoldMinMs p ->
       turnStateOf s' = turnStateOf s).
Proof.
  intros HL HR HY. cbv zeta.
  rewrite (step_face_turnState p rd lm earL earR yawRaw now s HL HR HY).
  generalize (smoothedYaw s yawRaw). intro yawSm.
  unfold onResults_yaw. split; [|split].
  - intro Hlt. apply Qgeb_false in Hlt. rewrite Hlt. reflexivity.
  - intros Hge Hnone. apply Qgeb_true in Hge. rewrite Hge, Hnone. reflexivity.
  - intros Hge since Hsince Hnz Hshort.
    apply Qgeb_true in Hge. apply Qgeb_false in Hshort.
    rewrite Hge, Hsince, Hshort.
    destruct (Qeq_bool since 0) eqn:Ez.
    + apply Qeq_bool_iff in Ez. contradiction.
    + unfold turnStateOf. rewrite Hsince. reflexivity.
Qed.

(** X7.  A timer started at the clock reading 0 counts as not running:
    the next frame with the yaw beyond the threshold restarts it at its own
    clock reading and records no turn, however long the yaw has been held. *)
Theorem turn_timer_zero_restarts (p : Props) (rd : State) (lm : Landmarks)
    (earL earR yawRaw now since : Q) (s : Session) :
  earFromLandmarks lm 159 145 33 133 = Some earL ->
  earFromLandmarks lm 386 374 263 362 = Some earR ->
  yawProxy lm = Some yawRaw ->
  yawAbsThreshold p <= Qabs (smoothedYaw s yawRaw) ->
  yawBeyondSinceRef (refs s) = Some since ->
  since == 0 ->
  turnStateOf (step p rd (Some lm) now s)
  = mkTurnState (Some now) (turnDetected (state s)) (turnedLeft (state s))
                (turnedRight (state s)).
Proof.
  intros HL HR HY Hge Hsince Hz.
  rewrite (step_face_turnState p rd lm earL earR yawRaw now s HL HR HY).
  apply Qgeb_true in Hge. apply Qeq_bool_iff in Hz.
  unfold onResults_yaw. rewrite Hge, Hsince, Hz. reflexivity.
Qed.

(** *** Bookkeeping *)

(** X8.  Frames never touch [isRunning], [permissionError] or the start
    time, and every delivered frame is counted, one with a malformed
    landmark set or without a face included. *)
Theorem frames_keep_lifecycle (p : Props) (evs : list Event) (s : Session) :
  frameCountRef (refs (run p evs s)) = (frameCountRef (refs s) + List.length evs)%nat /\
  isRunning (state (run p evs s)) = isRunning (state s) /\
  permissionError (state (run p evs s)) = permissionError (state s) /\
  startedAtRef (refs (run p evs s)) = startedAtRef (refs s).
Proof. apply run_bookkeeping. Qed.

(** X9.  After a frame whose extractors all succeed, the three values
    shown in the snapshot are the smoothed signals rounded to three
    decimals: each is within 0.0005 of the smoother's value. *)
Theorem debug_values_rounded (p : Props) (rd : State) (lm : Landmarks)
    (earL earR yawRaw now : Q) (s : Session) :
  earFromLandmarks lm 159 145 33 133 = Some earL ->
  earFromLandmarks lm 386 374 263 362 = Some earR ->
  yawProxy lm = Some yawRaw ->
  let s' := step p rd (Some lm) now s in
  (leftEAR (state s') = toFixed3 (smoothedLeft s earL) /\
   rightEAR (state s') = toFixed3 (smoothedRight s earR) /\
   yawDev (state s') = toFixed3 (smoothedYaw s yawRaw)) /\
  (Qabs (leftEAR (state s') - smoothedLeft s earL) <= 1 # 2000 /\
   Qabs (rightEAR (state s') - smoothedRight s earR) <= 1 # 2000 /\
   Qabs (yawDev (state s') - smoothedYaw s yawRaw) <= 1 # 2000).
Proof.
  intros HL HR HY. cbv zeta.
  assert (E : leftEAR (state (step p rd (Some lm) now s)) = toFixed3 (smoothedLeft s earL) /\
              rightEAR (state (step p rd (Some lm) now s))
              = toFixed3 (smoothedRight s earR) /\
              yawDev (state (step p rd (Some lm) now s))
              = toFixed3 (smoothedYaw s yawRaw)).
  { unfold step.
    destruct (runEffects_shape (onResults p rd (Some lm) now s)) as (b & -> & _).
    rewrite (onResults_face p rd lm earL earR now s HL HR), HY. cbv zeta.
    match goal with
    | |- context [onResults_check rd ?n ?x] =>
        destruct (onResults_check_shape rd n x) as (b1 & -> & _)
    end.
    unfold updateDebug.
    match goal with
    | |- context [onResults_yaw p rd now ?y ?n ?x] =>
        generalize (onResults_yaw p rd now y n x)
    end.
    generalize (smoothedLeft s earL) (smoothedRight s earR) (smoothedYaw s yawRaw).
    intros l r y z. open_session z. auto. }
  split; [exact E|].
  destruct E as (-> & -> & ->).
  repeat split; apply toFixed3_close.
Qed.

(** *** Lifecycle *)

(** X10.  [start] leaves nothing of the session it is applied to: two
    sessions with any histories are equal after it, so are all the frames
    that follow; [handleReset] is [start], and the session it gives is at
    rest under the effects. *)
Theorem start_forgets_history (p : Props) (dateNow : Q) (failure : option string)
    (s1 s2 : Session) (evs : list Event) :
  start dateNow failure s1 = start dateNow failure s2 /\
  handleReset dateNow failure s1 = start dateNow failure s2 /\
  run p evs (handleReset dateNow failure s1) = run p evs (start dateNow failure s2) /\
  settled (start dateNow failure s1).
Proof.
  assert (E : start dateNow failure s1 = start dateNow failure s2).
  { unfold start, resetSession. open_session s1. open_session s2. reflexivity. }
  assert (E' : handleReset dateNow failure s1 = start dateNow failure s2).
  { rewrite <- E. unfold handleReset, stop, start, resetSession.
    open_session s1. reflexivity. }
  split; [exact E|]. split; [exact E'|]. split; [rewrite E'; reflexivity|].
  unfold settled, runEffects, syncBlinkCountRef, finalGuard, start, resetSession.
  clear E E'. open_session s1. destruct failure; fields; reflexivity.
Qed.

End FrameProperties.

(** *** What a pass implies *)

Section PassSoundness.

Context {G : GeometryLib}.

(** A frame keeps: the ref of the count agrees with the count, and a
    session that has passed has two blinks or more and both flags. *)
Lemma processFrame_pass_invariant (p : Props) (lm0 : option Landmarks) (now : Q)
    (s : Session) :
  blinkCountRef (refs s) = blinkCount (state s) ->
  (livenessPassed (state s) = true ->
   (2 <= blinkCount (state s))%nat /\
   turnedLeft (state s) = true /\ turnedRight (state s) = true) ->
  blinkCountRef (refs (processFrame p lm0 now s))
  = blinkCount (state (processFrame p lm0 now s)) /\
  (livenessPassed (state (processFrame p lm0 now s)) = true ->
   (2 <= blinkCount (state (processFrame p lm0 now s)))%nat /\
   turnedLeft (state (processFrame p lm0 now s)) = true /\
   turnedRight (state (processFrame p lm0 now s)) = true).
Proof.
  intros Hsync Hinv. unfold processFrame.
  destruct (step_blinkCount_monotone p firstRender lm0 now s Hsync) as [Hsync' Hle].
  destruct (step_flags_monotone p firstRender lm0 now s) as (_ & Hl & Hr).
  pose proof (step_passed_no_captured_turn p firstRender lm0 now s
                eq_refl eq_refl eq_refl) as E.
  split; [exact Hsync'|].
  revert E Hle Hl Hr. generalize (step p firstRender lm0 now s). intros s' E Hle Hl Hr.
  rewrite E. clear E.
  destruct (livenessPassed (state s)) eqn:Hp.
  - intros _. destruct (Hinv eq_refl) as (Hc & HL & HR).
    rewrite HL in Hl. rewrite HR in Hr.
    destruct (turnedLeft (state s')); [|discriminate Hl].
    destruct (turnedRight (state s')); [|discriminate Hr].
    split; [lia | split; reflexivity].
  - cbn [orb]. intro H.
    apply andb_prop in H. destruct H as [H Hc].
    apply andb_prop in H. destruct H as [HL HR].
    apply Nat.leb_le in Hc. auto.
Qed.

(** X2.  A session that has passed has counted two blinks or more and has
    seen the head turned to both sides: no sequence of frames the component
    receives after a reset passes on fewer blinks or on a single direction. *)
Theorem pass_needs_blinks_and_both_turns (p : Props) (dateNow : Q) (s0 : Session)
    (fs : list (option Landmarks * Q)) :
  let s := processFrames p fs (resetSession dateNow s0) in
  livenessPassed (state s) = true ->
  (2 <= blinkCount (state s))%nat /\
  turnedLeft (state s) = true /\
  turnedRight (state s) = true.
Proof.
  cbv zeta.
  assert (Hall : forall s : Session,
             blinkCountRef (refs s) = blinkCount (state s) ->
             (livenessPassed (state s) = true ->
              (2 <= blinkCount (state s))%nat /\
              turnedLeft (state s) = true /\ turnedRight (state s) = true) ->
             livenessPassed (state (processFrames p fs s)) = true ->
             (2 <= blinkCount (state (processFrames p fs s)))%nat /\
             turnedLeft (state (processFrames p fs s)) = true /\
             turnedRight (state (processFrames p fs s)) = true).
  { clear s0 dateNow.
    induction fs as [|[lm0 now] fs IH]; intros s Hsync Hinv; cbn [processFrames].
    - exact Hinv.
    - destruct (processFrame_pass_invariant p lm0 now s Hsync Hinv) as [Hsync' Hinv'].
      apply IH; assumption. }
  apply Hall.
  - reflexivity.
  - intro H. discriminate H.
Qed.

End PassSoundness.

(** ** The earlier revision *)

Section EarlierProperties.

Context {G : GeometryLib}.

Lemma looseEq_left (b : bool) : Earlier.looseEqBoolString b "left" = false.
Proof. destruct b; reflexivity. Qed.

Lemma earlier_checkComplete_id (rd : State) (s : Session) : Earlier.checkComplete rd s = s.
Proof.
  unfold Earlier.checkComplete. rewrite looseEq_left, andb_false_r. reflexivity.
Qed.

Lemma earlier_checkWindow_id (s : Session) : Earlier.checkWindow s = s.
Proof. unfold Earlier.checkWindow. destruct (startedAtRef (refs s)); reflexivity. Qed.

Lemma earlier_blink_shape (p : Props) (now earAvg : Q) (s : Session) :
  exists (w : bool) (c : option Q) (n : nat),
    Earlier.onResults_blink p now earAvg s
    = setState (setBlinkCount n)
        (assign (put_eyesClosedSinceRef c) (assign (put_eyesWereClosedRef w) s)) /\
    (n = blinkCount (state s) \/ n = (blinkCount (state s) + 1)%nat).
Proof.
  open_session s. unfold Earlier.onResults_blink. fields.
  repeat match goal with
         | |- context [if ?c then _ else _] => destruct c
         end;
    do 3 eexists; (split; [fields; reflexivity|]); auto.
Qed.

Lemma earlier_yaw_shape (p : Props) (rd : State) (now yawSm : Q) (s : Session) :
  exists (t : option Q) (d : option Direction),
    Earlier.onResults_yaw p rd now yawSm s
    = assign (put_yawBeyondSinceRef t) (setState (setTurnDetected d) s) /\
    (d = turnDetected (state s) \/ (turnDetected rd = None /\ d <> None)).
Proof.
  assert (Hsame : forall t : option Q,
             exists (t' : option Q) (d : option Direction),
               assign (put_yawBeyondSinceRef t) s
               = assign (put_yawBeyondSinceRef t') (setState (setTurnDetected d) s) /\
               (d = turnDetected (state s) \/ (turnDetected rd = None /\ d <> None))).
  { intro t. exists t, (turnDetected (state s)). split; [|auto].
    open_session s. reflexivity. }
  unfold Earlier.onResults_yaw.
  destruct (Qgeb (Qabs yawSm) (yawAbsThreshold p)); [|apply Hsame].
  destruct (yawBeyondSinceRef (refs s)) as [since|] eqn:Es; [|apply Hsame].
  destruct (Qeq_bool since 0); [apply Hsame|].
  destruct (turnDetected rd) as [dr|] eqn:Hrd; cbn [truthy negb andb].
  - destruct (Hsame (Some since)) as (t & d & E & Hd).
    exists t, d. split; [|exact Hd]. rewrite <- E.
    revert Es. open_session s. intros ->. reflexivity.
  - destruct (Qgeb (now - since) (yawHoldMinMs p)).
    + exists (Some since), (Some (if Qgtb yawSm 0 then Right else Left)).
      split; [|right; split; [reflexivity | discriminate]].
      revert Es. open_session s. intros ->. reflexivity.
    + destruct (Hsame (Some since)) as (t & d & E & Hd).
      exists t, d. split; [|exact Hd]. rewrite <- E.
      revert Es. open_session s. intros ->. reflexivity.
Qed.

(** What the callback of the earlier revision may write. *)
Lemma earlier_onResults_shape (p : Props) (rd : State) (lm0 : option Landmarks) (now : Q)
    (s : Session) :
  exists (n : nat) (d : option Direction) (l r y : Q) (rf : Refs),
    Earlier.onResults p rd lm0 now s
    = mkSession (setYawDev y (setRightEAR r (setLeftEAR l
                   (setTurnDetected d (setBlinkCount n (state s)))))) rf /\
    (n = blinkCount (state s) \/ n = (blinkCount (state s) + 1)%nat) /\
    (d = turnDetected (state s) \/ (turnDetected rd = None /\ d <> None)) /\
    frameCountRef rf = (frameCountRef (refs s) + 1)%nat.
Proof.
  assert (Hsame : forall rf : Refs,
             frameCountRef rf = (frameCountRef (refs s) + 1)%nat ->
             exists (n : nat) (d : option Direction) (l r y : Q) (rf' : Refs),
               mkSession (state s) rf
               = mkSession (setYawDev y (setRightEAR r (setLeftEAR l
                              (setTurnDetected d (setBlinkCount n (state s)))))) rf' /\
               (n = blinkCount (state s) \/ n = (blinkCount (state s) + 1)%nat) /\
               (d = turnDetected (state s) \/ (turnDetected rd = None /\ d <> None)) /\
               frameCountRef rf' = (frameCountRef (refs s) + 1)%nat).
  { intros rf Hf.
    exists (blinkCount (state s)), (turnDetected (state s)), (leftEAR (state s)),
      (rightEAR (state s)), (yawDev (state s)), rf.
    split; [|auto]. destruct s as [[] ?]. reflexivity. }
  unfold Earlier.onResults.
  destruct lm0 as [lm|].
  - destruct (earFromLandmarks lm 159 145 33 133) as [earL|];
      [destruct (earFromLandmarks lm 386 374 263 362) as [earR|]|];
      [ | apply Hsame; reflexivity | apply Hsame; reflexivity ].
    clear Hsame.
    match goal with
    | |- context [Earlier.onResults_blink p now ?e ?x] =>
        destruct (earlier_blink_shape p now e x) as (w & c & n & -> & Hn)
    end.
    destruct (yawProxy lm) as [yawRaw|].
    + rewrite earlier_checkWindow_id, earlier_checkComplete_id.
      match goal with
      | |- context [Earlier.onResults_yaw p rd now ?y ?x] =>
          destruct (earlier_yaw_shape p rd now y x) as (t & d & -> & Hd)
      end.
      unfold updateDebug. revert Hn Hd. open_session s. intros Hn Hd.
      do 6 eexists. split; [fields; reflexivity|]. fields. auto.
    + revert Hn. open_session s. intro Hn.
      exists n. do 5 eexists. split; [fields; reflexivity|]. fields. auto.
  - rewrite earlier_checkWindow_id. unfold updateDebug.
    open_session s.
    do 6 eexists. split; [fields; reflexivity|]. fields. auto.
Qed.

Lemma earlier_finalGuard_state (x : Session) :
  state (Earlier.finalGuard x)
  = setLivenessPassed
      (livenessPassed (state x)
       || ((2 <=? blinkCount (state x))%nat && truthy (turnDetected (state x))))
      (state x) /\
  refs (Earlier.finalGuard x) = refs x.
Proof.
  unfold Earlier.finalGuard.
  destruct x as [[xRun xErr xCount xTurn xPassed xL xR xY xLeft xRight] r]. fields.
  destruct xPassed, (2 <=? xCount)%nat, xTurn; split; reflexivity.
Qed.

Lemma earlier_step_shape (p : Props) (rd : State) (lm0 : option Landmarks) (now : Q)
    (s : Session) :
  exists (n : nat) (d : option Direction) (l r y : Q) (rf : Refs),
    Earlier.step p rd lm0 now s
    = mkSession (setLivenessPassed
                   (livenessPassed (state s) || ((2 <=? n)%nat && truthy d))
                   (setYawDev y (setRightEAR r (setLeftEAR l
                      (setTurnDetected d (setBlinkCount n (state s))))))) rf /\
    (n = blinkCount (state s) \/ n = (blinkCount (state s) + 1)%nat) /\
    (d = turnDetected (state s) \/ (turnDetected rd = None /\ d <> None)) /\
    frameCountRef rf = (frameCountRef (refs s) + 1)%nat.
Proof.
  unfold Earlier.step.
  destruct (earlier_onResults_shape p rd lm0 now s)
    as (n & d & l & r & y & rf & E & Hn & Hd & Hf).
  exists n, d, l, r, y, rf. split; [|auto].
  rewrite E.
  match goal with
  | |- Earlier.finalGuard ?x = _ =>
      destruct (earlier_finalGuard_state x) as [Es Er];
      destruct (Earlier.finalGuard x) as [t' r']
  end.
  cbn [state refs] in Es, Er. subst t' r'.
  open_session s. reflexivity.
Qed.

(** X11.  In the earlier revision [checkComplete] never changes the
    session: it compares a boolean with the string "left".  The pass
    decision of a frame is the final guard's alone: two blinks or more and
    any one recorded turn, on the values the frame has produced, whatever
    render the callback captured. *)
Theorem earlier_pass_decision (p : Props) (rd : State) (lm0 : option Landmarks) (now : Q)
    (s : Session) :
  let s' := Earlier.step p rd lm0 now s in
  (forall (rd' : State) (x : Session), Earlier.checkComplete rd' x = x) /\
  livenessPassed (state s')
  = livenessPassed (state s)
    || ((2 <=? blinkCount (state s'))%nat && truthy (turnDetected (state s'))).
Proof.
  cbv zeta. split; [exact earlier_checkComplete_id|].
  destruct (earlier_step_shape p rd lm0 now s) as (n & d & l & r & y & rf & -> & _).
  open_session s. reflexivity.
Qed.

(** X12.  In the earlier revision further frames never lower the blink
    count, which a frame raises by one at most, and never take back a pass,
    whatever render each callback invocation captured; [resetSession] clears
    both. *)
Theorem earlier_monotone (p : Props) (dateNow : Q) (evs : list Event) (s : Session) :
  (blinkCount (state s) <= blinkCount (state (Earlier.run p evs s))
   <= blinkCount (state s) + List.length evs)%nat /\
  Bool.le (livenessPassed (state s)) (livenessPassed (state (Earlier.run p evs s))) /\
  blinkCount (state (Earlier.resetSession dateNow s)) = 0%nat /\
  livenessPassed (state (Earlier.resetSession dateNow s)) = false.
Proof.
  split; [|split; [|split; reflexivity]].
  - revert s. induction evs as [|[[rd lm0] now] evs IH]; intro s;
      cbn [Earlier.run List.length]; [lia|].
    specialize (IH (Earlier.step p rd lm0 now s)).
    destruct (earlier_step_shape p rd lm0 now s) as (n & d & l & r & y & rf & E & Hn & _).
    rewrite E in IH at 1 4. revert IH Hn. clear E.
    generalize (blinkCount (state (Earlier.run p evs (Earlier.step p rd lm0 now s)))).
    open_session s. intros m IH Hn. lia.
  - revert s. induction evs as [|[[rd lm0] now] evs IH]; intro s; cbn [Earlier.run].
    + apply le_refl_bool.
    + apply (le_trans_bool _ (livenessPassed (state (Earlier.step p rd lm0 now s)))).
      * destruct (earlier_step_shape p rd lm0 now s) as (n & d & l & r & y & rf & -> & _).
        open_session s.
        match goal with
        | |- Bool.le ?b _ => destruct b; reflexivity || exact I
        end.
      * apply IH.
Qed.

Lemma earlier_onResults_face (p : Props) (rd : State) (lm : Landmarks)
    (earL earR now : Q) (s : Session) :
  earFromLandmarks lm 159 145 33 133 = Some earL ->
  earFromLandmarks lm 386 374 263 362 = Some earR ->
  Earlier.onResults p rd (Some lm) now s
  = let x := Earlier.onResults_blink p now (earAvgOf s earL earR)
               (smoothedEars s earL earR) in
    match yawProxy lm with
    | None => x
    | Some yawRaw =>
        Earlier.checkWindow
          (Earlier.checkComplete rd
             (updateDebug (smoothedLeft s earL) (smoothedRight s earR)
                (smoothedYaw s yawRaw)
                (Earlier.onResults_yaw p rd now (smoothedYaw s yawRaw)
                   (assign (put_yawEMARef (Some (smoothedYaw s yawRaw))) x))))
    end.
Proof.
  intros HL HR. unfold Earlier.onResults. rewrite HL, HR.
  open_session s.
  unfold earAvgOf, smoothedEars. unfold smoothedLeft, smoothedRight, smoothedYaw. fields.
  match goal with
  | |- context [Earlier.onResults_blink p now ?e ?x] =>
      destruct (earlier_blink_shape p now e x) as (w & c & n & -> & _)
  end.
  fields. reflexivity.
Qed.

(** X13.  In the earlier revision [turnDetected] holds the last turn, not
    the first: the callback the component receives frames through is the
    first render's, whose [turnDetected] is unset, so a frame on which the
    head has been held beyond the threshold for [yawHoldMinMs] or more, the
    timer started at a non-zero clock reading, writes the direction of the
    current smoothed yaw over whatever was recorded.  A recorded direction
    is replaced but never cleared by frames. *)
Theorem earlier_turn_overwritten (p : Props) (lm : Landmarks)
    (earL earR yawRaw now since : Q) (s : Session) :
  earFromLandmarks lm 159 145 33 133 = Some earL ->
  earFromLandmarks lm 386 374 263 362 = Some earR ->
  yawProxy lm = Some yawRaw ->
  yawBeyondSinceRef (refs s) = Some since ->
  ~ since == 0 ->
  yawHoldMinMs p <= now - since ->
  yawAbsThreshold p <= Qabs (smoothedYaw s yawRaw) ->
  let s' := Earlier.processFrame p (Some lm) now s in
  (0 < smoothedYaw s yawRaw -> turnDetected (state s') = Some Right) /\
  (smoothedYaw s yawRaw < 0 -> turnDetected (state s') = Some Left) /\
  (forall evs : list Event,
      turnDetected (state s) <> None ->
      turnDetected (state (Earlier.run p evs s)) <> None).
Proof.
  intros HL HR HY Hsince Hnz Hheld Hbeyond. cbv zeta.
  assert (Hkept : forall evs : list Event,
             turnDetected (state s) <> None ->
             turnDetected (state (Earlier.run p evs s)) <> None).
  { clear. intro evs. revert s.
    induction evs as [|[[rd lm0] now] evs IH]; intros s Hd; cbn [Earlier.run].
    - exact Hd.
    - apply IH.
      destruct (earlier_step_shape p rd lm0 now s)
        as (n & d & l & r & y & rf & -> & _ & Hd' & _).
      revert Hd Hd'. open_session s. intros Hd [->|[_ Hd']]; assumption. }
  assert (Hdir : turnDetected (state (Earlier.processFrame p (Some lm) now s))
                 = Some (if Qgtb (smoothedYaw s yawRaw) 0 then Right else Left)).
  { unfold Earlier.processFrame, Earlier.step.
    match goal with
    | |- context [Earlier.finalGuard ?x] =>
        destruct (earlier_finalGuard_state x) as [Es _]; rewrite Es; clear Es
    end.
    rewrite (earlier_onResults_face p firstRender lm earL earR now s HL HR), HY.
    cbv zeta.
    rewrite earlier_checkWindow_id, earlier_checkComplete_id.
    destruct (earlier_blink_shape p now (earAvgOf s earL earR)
                (smoothedEars s earL earR)) as (w & c & n & -> & _).
    apply Qgeb_true in Hbeyond, Hheld.
    assert (Hz : Qeq_bool since 0 = false).
    { destruct (Qeq_bool since 0) eqn:Ez; trivial.
      apply Qeq_bool_iff in Ez. contradiction. }
    revert Hbeyond. generalize (smoothedYaw s yawRaw). intros yawSm Hbeyond.
    unfold Earlier.onResults_yaw, updateDebug.
    rewrite Hbeyond.
    replace (yawBeyondSinceRef
               (refs (assign (put_yawEMARef (Some yawSm))
                        (setState (setBlinkCount n)
                           (assign (put_eyesClosedSinceRef c)
                              (assign (put_eyesWereClosedRef w)
                                 (smoothedEars s earL earR)))))))
      with (Some since) by (rewrite <- Hsince; clear; open_session s; reflexivity).
    rewrite Hz, Hheld.
    change (turnDetected firstRender) with (@None Direction).
    cbn [truthy negb andb].
    clear. open_session s. reflexivity. }
  split; [|split; [|exact Hkept]].
  - intro Hpos. apply Qgtb_true in Hpos. rewrite Hdir, Hpos. reflexivity.
  - intro Hneg. assert (Hle : Qgtb (smoothedYaw s yawRaw) 0 = false)
      by (apply Qgtb_false; lra).
    rewrite Hdir, Hle. reflexivity.
Qed.

(** X14.  The blink detector of the earlier revision has one threshold and
    no refractory period: a closed detector whose averaged smoothed EAR is
    at or above [earThreshold] reopens, and the blink is counted exactly when
    the closure lasted [earCloseMinMs] or more, however recently the last
    blink was counted. *)
Theorem earlier_blink_exit (p : Props) (rd : State) (lm : Landmarks)
    (earL earR now since : Q) (s : Session) :
  earFromLandmarks lm 159 145 33 133 = Some earL ->
  earFromLandmarks lm 386 374 263 362 = Some earR ->
  eyesWereClosedRef (refs s) = true ->
  eyesClosedSinceRef (refs s) = Some since ->
  earThreshold p <= earAvgOf s earL earR ->
  let s' := Earlier.step p rd (Some lm) now s in
  eyesWereClosedRef (refs s') = false /\
  eyesClosedSinceRef (refs s') = None /\
  (earCloseMinMs p <= now - since ->
     blinkCount (state s') = (blinkCount (state s) + 1)%nat) /\
  (now - since < earCloseMinMs p -> blinkCount (state s') = blinkCount (state s)).
Proof.
  intros HL HR Hclosed Hsince Hopen. cbv zeta.
  apply Qltb_false in Hopen.
  assert (Hblock : exists n : nat,
             Earlier.onResults_blink p now (earAvgOf s earL earR) (smoothedEars s earL earR)
             = setState (setBlinkCount n)
                 (assign (put_eyesClosedSinceRef None)
                    (assign (put_eyesWereClosedRef false) (smoothedEars s earL earR))) /\
             (earCloseMinMs p <= now - since -> n = (blinkCount (state s) + 1)%nat) /\
             (now - since < earCloseMinMs p -> n = blinkCount (state s))).
  { unfold Earlier.onResults_blink. rewrite Hopen.
    replace (eyesWereClosedRef (refs (smoothedEars s earL earR))) with true
      by (rewrite <- Hclosed; open_session s; reflexivity).
    replace (eyesClosedSinceRef (refs (smoothedEars s earL earR))) with (Some since)
      by (rewrite <- Hsince; open_session s; reflexivity).
    cbn [nullish].
    destruct (Qgeb (now - since) (earCloseMinMs p)) eqn:Hlen.
    - exists (blinkCount (state s) + 1)%nat. split; [|split; intro; trivial].
      + clear. open_session s. reflexivity.
      + apply Qgeb_true in Hlen. exfalso. apply (Qlt_not_le _ _ H Hlen).
    - exists (blinkCount (state s)). split; [|split; intro H; trivial].
      + clear. open_session s. reflexivity.
      + apply Qgeb_true in H. congruence. }
  destruct Hblock as (n & Eb & Hn1 & Hn2).
  assert (Hstep : eyesWereClosedRef (refs (Earlier.step p rd (Some lm) now s)) = false /\
                  eyesClosedSinceRef (refs (Earlier.step p rd (Some lm) now s)) = None /\
                  blinkCount (state (Earlier.step p rd (Some lm) now s)) = n).
  { unfold Earlier.step.
    match goal with
    | |- context [Earlier.finalGuard ?x] =>
        destruct (earlier_finalGuard_state x) as [Es Er]; rewrite Es, Er; clear Es Er
    end.
    rewrite (earlier_onResults_face p rd lm earL earR now s HL HR). cbv zeta.
    rewrite Eb.
    destruct (yawProxy lm) as [yawRaw|].
    - rewrite earlier_checkWindow_id, earlier_checkComplete_id.
      match goal with
      | |- context [Earlier.onResults_yaw p rd now ?y ?x] =>
          destruct (earlier_yaw_shape p rd now y x) as (t & d & -> & _)
      end.
      unfold updateDebug. clear. open_session s. auto.
    - clear. open_session s. auto. }
  destruct Hstep as (-> & -> & ->). auto.
Qed.

End EarlierProperties.

(** ** The script loader *)

Section LoaderProperties.

Import Loader.

Lemma cacheGet_load (src src' : string) (pg : Page) (p : nat) :
  cacheGet src (scriptCache pg) = Some p ->
  cacheGet src (scriptCache (snd (loadScriptOnce src' pg))) = Some p.
Proof.
  intro H. unfold loadScriptOnce.
  destruct (cacheGet src' (scriptCache pg)) eqn:E; cbn [snd scriptCache cacheGet].
  - exact H.
  - destruct (String.eqb src' src) eqn:Es; [|exact H].
    apply String.eqb_eq in Es. subst src'. congruence.
Qed.

Lemma settle_cache (p : nat) (o : Settled) (pg : Page) :
  scriptCache (settle p o pg) = scriptCache pg /\
  headScripts (settle p o pg) = headScripts pg /\
  promiseCount (settle p o pg) = promiseCount pg.
Proof. unfold settle. destruct (outcome p (settled pg)); auto. Qed.

Lemma settle_outcome (p q : nat) (o o' : Settled) (pg : Page) :
  outcome q (settled pg) = Some o' ->
  outcome q (settled (settle p o pg)) = Some o'.
Proof.
  intro H. unfold settle. destruct (outcome p (settled pg)) eqn:E; [exact H|].
  cbn [settled outcome]. destruct (Nat.eqb p q) eqn:Epq; [|exact H].
  apply Nat.eqb_eq in Epq. subst q. congruence.
Qed.

Lemma act_cache (a : Action) (src : string) (pg : Page) (p : nat) :
  cacheGet src (scriptCache pg) = Some p ->
  cacheGet src (scriptCache (act a pg)) = Some p.
Proof.
  intro H. destruct a as [src'|q|q|q]; cbn [act].
  - apply cacheGet_load. exact H.
  - destruct (q <? promiseCount pg)%nat; [|exact H].
    unfold onload. destruct (settle_cache q Fulfilled (clearTimeout q pg)) as (-> & _).
    exact H.
  - destruct (q <? promiseCount pg)%nat; [|exact H].
    unfold onerror.
    destruct (settle_cache q (Rejected FailedToLoad) (clearTimeout q pg)) as (-> & _).
    exact H.
  - unfold ontimeout. destruct (existsb (Nat.eqb q) (timers pg)); [|exact H].
    destruct (settle_cache q (Rejected TimedOut) (removeScript q (clearTimeout q pg)))
      as (-> & _).
    exact H.
Qed.

Lemma act_outcome (a : Action) (pg : Page) (q : nat) (o : Settled) :
  outcome q (settled pg) = Some o ->
  outcome q (settled (act a pg)) = Some o.
Proof.
  intro H. destruct a as [src'|p|p|p]; cbn [act].
  - unfold loadScriptOnce. destruct (cacheGet src' (scriptCache pg)); exact H.
  - destruct (p <? promiseCount pg)%nat; [|exact H].
    apply settle_outcome. exact H.
  - destruct (p <? promiseCount pg)%nat; [|exact H].
    apply settle_outcome. exact H.
  - unfold ontimeout. destruct (existsb (Nat.eqb p) (timers pg)); [|exact H].
    apply settle_outcome. exact H.
Qed.

Lemma runActions_cache (acts : list Action) :
  forall (src : string) (pg : Page) (p : nat),
    cacheGet src (scriptCache pg) = Some p ->
    cacheGet src (scriptCache (runActions acts pg)) = Some p.
Proof.
  induction acts as [|a acts IH]; intros src pg p H; cbn [runActions].
  - exact H.
  - apply IH, act_cache, H.
Qed.

Lemma runActions_outcome (acts : list Action) :
  forall (pg : Page) (q : nat) (o : Settled),
    outcome q (settled pg) = Some o ->
    outcome q (settled (runActions acts pg)) = Some o.
Proof.
  induction acts as [|a acts IH]; intros pg q o H; cbn [runActions].
  - exact H.
  - apply IH, act_outcome, H.
Qed.

Lemma loadScriptOnce_hit (src : string) (pg : Page) (p : nat) :
  cacheGet src (scriptCache pg) = Some p -> loadScriptOnce src pg = (p, pg).
Proof. intro H. unfold loadScriptOnce. rewrite H. reflexivity. Qed.

Lemma loadScriptOnce_get (src : string) (pg : Page) :
  cacheGet src (scriptCache (snd (loadScriptOnce src pg)))
  = Some (fst (loadScriptOnce src pg)).
Proof.
  unfold loadScriptOnce. destruct (cacheGet src (scriptCache pg)) eqn:E; cbn.
  - exact E.
  - rewrite String.eqb_refl. reflexivity.
Qed.

(** X15.  Once [loadScriptOnce] has been called for a script, every later
    call for it, whatever was loaded and whatever happened to the script
    elements in between, returns the promise of the first call and changes
    nothing on the page. *)
Theorem loadScriptOnce_cached (src : string) (pg : Page) (acts : list Action) :
  let first := loadScriptOnce src pg in
  let later := runActions acts (snd first) in
  loadScriptOnce src later = (fst first, later).
Proof.
  cbv zeta. apply loadScriptOnce_hit, runActions_cache, loadScriptOnce_get.
Qed.

(** X16.  A promise settles once: when the promise cached for a script has
    been fulfilled or rejected, by the script's error event or by the
    timeout, it keeps that outcome whatever happens later, and
    [loadScriptOnce] keeps returning it: a load that failed is not tried
    again. *)
Theorem settled_load_is_final (src : string) (pg : Page) (p : nat) (o : Settled)
    (acts : list Action) :
  cacheGet src (scriptCache pg) = Some p ->
  outcome p (settled pg) = Some o ->
  let later := runActions acts pg in
  loadScriptOnce src later = (p, later) /\
  outcome p (settled (snd (loadScriptOnce src later))) = Some o.
Proof.
  intros Hc Ho. cbv zeta.
  assert (E : loadScriptOnce src (runActions acts pg) = (p, runActions acts pg))
    by (apply loadScriptOnce_hit, runActions_cache, Hc).
  split; [exact E|]. rewrite E. cbn [snd].
  apply runActions_outcome. exact Ho.
Qed.

(** The invariant of the pages reached from the empty one. *)
Lemma runActions_scripts (acts : list Action) :
  forall pg : Page,
    NoDup (map snd (headScripts pg)) ->
    (forall e : nat * string,
        In e (headScripts pg) -> cacheGet (snd e) (scriptCache pg) <> None) ->
    NoDup (map snd (headScripts (runActions acts pg))).
Proof.
  assert (Hfilter : forall (f : nat * string -> bool) (l : list (nat * string)),
             NoDup (map snd l) -> NoDup (map snd (filter f l))).
  { intros f l. induction l as [|e l IH]; cbn [filter map]; intro H; [constructor|].
    inversion H as [|x xs Hx Hxs]; subst.
    destruct (f e); cbn [map]; [|auto].
    constructor; [|auto].
    intro Hin. apply Hx. apply in_map_iff in Hin. destruct Hin as (e' & He & Hin).
    apply filter_In in Hin. apply in_map_iff. exists e'. tauto. }
  induction acts as [|a acts IH]; intros pg Hnd Hin; cbn [runActions]; [exact Hnd|].
  apply IH.
  - destruct a as [src|q|q|q]; cbn [act].
    + unfold loadScriptOnce. destruct (cacheGet src (scriptCache pg)) eqn:E;
        cbn [snd headScripts]; [exact Hnd|].
      rewrite map_app. cbn [map snd].
      apply NoDup_app; [exact Hnd | repeat constructor; intros [] | ].
      intros x Hx [<-|[]]. apply in_map_iff in Hx. destruct Hx as (e & He & Hx).
      apply (Hin e Hx). rewrite He. exact E.
    + destruct (q <? promiseCount pg)%nat; [|exact Hnd].
      unfold onload. destruct (settle_cache q Fulfilled (clearTimeout q pg)) as (_ & -> & _).
      exact Hnd.
    + destruct (q <? promiseCount pg)%nat; [|exact Hnd].
      unfold onerror.
      destruct (settle_cache q (Rejected FailedToLoad) (clearTimeout q pg))
        as (_ & -> & _).
      exact Hnd.
    + unfold ontimeout. destruct (existsb (Nat.eqb q) (timers pg)); [|exact Hnd].
      destruct (settle_cache q (Rejected TimedOut) (removeScript q (clearTimeout q pg)))
        as (_ & -> & _).
      cbn [removeScript clearTimeout headScripts]. apply Hfilter. exact Hnd.
  - intros e He. apply not_eq_sym. intro Hn. symmetry in Hn. revert He Hn.
    destruct a as [src|q|q|q]; cbn [act].
    + unfold loadScriptOnce. destruct (cacheGet src (scriptCache pg)) eqn:E;
        cbn [snd headScripts scriptCache cacheGet].
      * intros He Hn. apply (Hin e He Hn).
      * intros He. apply in_app_or in He. destruct He as [He|[<-|[]]].
        -- destruct (String.eqb src (snd e)); [discriminate|]. apply (Hin e He).
        -- cbn [snd]. rewrite String.eqb_refl. discriminate.
    + destruct (q <? promiseCount pg)%nat; [|apply Hin].
      unfold onload.
      destruct (settle_cache q Fulfilled (clearTimeout q pg)) as (-> & -> & _).
      apply Hin.
    + destruct (q <? promiseCount pg)%nat; [|apply Hin].
      unfold onerror.
      destruct (settle_cache q (Rejected FailedToLoad) (clearTimeout q pg))
        as (-> & -> & _).
      apply Hin.
    + unfold ontimeout. destruct (existsb (Nat.eqb q) (timers pg)); [|apply Hin].
      destruct (settle_cache q (Rejected TimedOut) (removeScript q (clearTimeout q pg)))
        as (-> & -> & _).
      cbn [removeScript clearTimeout headScripts scriptCache].
      intros He. apply filter_In in He. apply Hin. tauto.
Qed.

(** X17.  However [loadScriptOnce] is called and whatever the script
    elements do, the document's head never holds two script elements for the
    same script. *)
Theorem one_script_per_src (acts : list Action) (src : string) :
  (scriptsFor src (runActions acts emptyPage) <= 1)%nat.
Proof.
  pose proof (runActions_scripts acts emptyPage (NoDup_nil _)
                (fun e (H : In e []) => match H with end)) as Hnd.
  unfold scriptsFor. revert Hnd.
  generalize (headScripts (runActions acts emptyPage)). intro l.
  induction l as [|e l IH]; cbn [map filter List.length]; intro Hnd; [lia|].
  inversion Hnd as [|x xs Hx Hxs]; subst.
  destruct (String.eqb (snd e) src) eqn:E; [|auto].
  apply String.eqb_eq in E. cbn [List.length].
  assert (Hz : List.length (filter (fun e0 => String.eqb (snd e0) src) l) = 0%nat).
  { destruct (filter (fun e0 => String.eqb (snd e0) src) l) as [|e' l'] eqn:Ef;
      [reflexivity|].
    exfalso. apply Hx.
    assert (He' : In e' (filter (fun e0 => String.eqb (snd e0) src) l))
      by (rewrite Ef; left; reflexivity).
    apply filter_In in He'. destruct He' as [He' Hs'].
    apply String.eqb_eq in Hs'. apply in_map_iff. exists e'. split; congruence. }
  lia.
Qed.

End LoaderProperties.

(** *** Face loss *)

Section FaceLoss.

Context {G : GeometryLib}.

Lemma step_synced (p : Props) (rd : State) (lm0 : option Landmarks) (now : Q) (s : Session) :
  blinkCountRef (refs (step p rd lm0 now s)) = blinkCount (state (step p rd lm0 now s)).
Proof.
  unfold step. destruct (runEffects_shape (onResults p rd lm0 now s)) as (b & -> & _).
  generalize (onResults p rd lm0 now s). intro x. open_session x. reflexivity.
Qed.

Lemma step_noFace_views (p : Props) (rd : State) (now : Q) (s : Session) :
  blinkStateOf (step p rd None now s)
  = mkBlinkState (eyesWereClosedRef (refs s)) None (Some (lastBlinkAtRef (refs s)))
                 (blinkCount (state s)) /\
  turnStateOf (step p rd None now s)
  = mkTurnState None (turnDetected (state s)) (turnedLeft (state s))
                (turnedRight (state s)).
Proof.
  unfold step. rewrite blinkStateOf_runEffects, turnStateOf_runEffects.
  unfold onResults, updateDebug. open_session s. split; reflexivity.
Qed.

(** Without a running timer a frame records no turn. *)
Lemma step_turn_without_timer (p : Props) (rd : State) (lm0 : option Landmarks) (now : Q)
    (s : Session) :
  yawBeyondSinceRef (refs s) = None ->
  lastDirection (turnStateOf (step p rd lm0 now s)) = turnDetected (state s) /\
  turnedLeftEver (turnStateOf (step p rd lm0 now s)) = turnedLeft (state s) /\
  turnedRightEver (turnStateOf (step p rd lm0 now s)) = turnedRight (state s).
Proof.
  intro Hnone.
  destruct lm0 as [lm|]; [|destruct (step_noFace_views p rd now s) as [_ ->]; auto].
  destruct (earFromLandmarks lm 159 145 33 133) as [earL|] eqn:HL;
    [destruct (earFromLandmarks lm 386 374 263 362) as [earR|] eqn:HR|].
  - destruct (yawProxy lm) as [yawRaw|] eqn:HY.
    + rewrite (step_face_turnState p rd lm earL earR yawRaw now s HL HR HY).
      unfold onResults_yaw. rewrite Hnone.
      destruct (Qgeb (Qabs (smoothedYaw s yawRaw)) (yawAbsThreshold p)); auto.
    + unfold step. rewrite turnStateOf_runEffects.
      rewrite (onResults_face p rd lm earL earR now s HL HR), HY. cbv zeta.
      destruct (onResults_blink_shape p rd now (earAvgOf s earL earR)
                  (smoothedEars s earL earR)) as (w & c & k & nr & nc & -> & _).
      clear. open_session s. auto.
  - unfold step. rewrite turnStateOf_runEffects. unfold onResults. rewrite HL, HR.
    clear. open_session s. auto.
  - unfold step. rewrite turnStateOf_runEffects. unfold onResults. rewrite HL.
    clear. open_session s. auto.
Qed.

(** X18.  A frame without a face discards what was in flight: whatever
    the next frame is, and however long the eyes were closed or the head
    was turned before the face was lost, that frame counts no blink (for a
    positive [earCloseMinMs]) and records no turn. *)
Theorem face_loss_no_credit (p : Props) (rd1 rd2 : State) (lm0 : option Landmarks)
    (t1 t2 : Q) (s : Session) :
  0 < earCloseMinMs p ->
  let lost := step p rd1 None t1 s in
  let next := step p rd2 lm0 t2 lost in
  blinkCount (state next) = blinkCount (state s) /\
  turnDetected (state next) = turnDetected (state s) /\
  turnedLeft (state next) = turnedLeft (state s) /\
  turnedRight (state next) = turnedRight (state s).
Proof.
  intro Hmin. cbv zeta.
  destruct (step_noFace_views p rd1 t1 s) as [Hb Ht].
  assert (Hsince : eyesClosedSinceRef (refs (step p rd1 None t1 s)) = None)
    by exact (f_equal closedSinceTimestamp Hb).
  assert (Hcount : blinkCount (state (step p rd1 None t1 s)) = blinkCount (state s))
    by exact (f_equal blinkCountOf Hb).
  assert (Htimer : yawBeyondSinceRef (refs (step p rd1 None t1 s)) = None)
    by exact (f_equal beyondSinceTimestamp Ht).
  destruct (step_turn_without_timer p rd2 lm0 t2 _ Htimer) as (Hd & Hl & Hr).
  pose proof (step_blink_cases p rd2 lm0 t2 _ (step_synced p rd1 None t1 s)) as Hc.
  cbv zeta in Hc. unfold blinkStateOf in Hc.
  cbn [isClosed closedSinceTimestamp lastBlinkTimestamp blinkCountOf] in Hc.
  unfold turnStateOf in Hd, Hl, Hr.
  cbn [lastDirection turnedLeftEver turnedRightEver] in Hd, Hl, Hr.
  rewrite Hd, Hl, Hr.
  split; [|split; [exact (f_equal lastDirection Ht)|split;
                   [exact (f_equal turnedLeftEver Ht) | exact (f_equal turnedRightEver Ht)]]].
  rewrite <- Hcount.
  destruct Hc as [(_ & Hc & _) | [(_ & _ & _ & Hc & _)
                 | [(_ & _ & _ & Hc & _) | (_ & _ & _ & _ & _ & _ & Hlen)]]];
    try exact Hc.
  exfalso. rewrite Hsince in Hlen. cbn [nullish] in Hlen. lra.
Qed.

End FaceLoss.

(** ** Further instances *)


Lemma pass_needs_blinks_and_both_turns_witness :
  let s := play (twoBlinks ++ turnRight ++ swingLeft ++ [(face 0.25 0.25 (-3), 4150)]) in
  (2 <= blinkCount (state s))%nat /\
  turnedLeft (state s) = true /\
  turnedRight (state s) = true.
Proof.
  cbv zeta.
  apply (pass_needs_blinks_and_both_turns (G:=sampleGeometry) defaultProps 0 mount
           (twoBlinks ++ turnRight ++ swingLeft ++ [(face 0.25 0.25 (-3), 4150)])).
  vm_compute. reflexivity.
Defined.

Lemma blink_enter_transition_witness :
  let s' := processFrame defaultProps (face 0 0 0) 2000 (play openEyes) in
  eyesWereClosedRef (refs s') = true /\ eyesClosedSinceRef (refs s') = Some 2000.
Proof.
  cbv zeta.
  destruct (blink_enter_transition (G:=sampleGeometry) defaultProps
              firstRender (mkSample (Some 0) (Some 0) (Some 0)) 0 0 2000
              (play openEyes) eq_refl eq_refl eq_refl eq_refl) as [Henter _].
  destruct Henter as (Hc & Hs & _); [Qdecide|].
  split; [exact Hc | exact Hs].
Defined.

Lemma blink_count_step_witness :
  let s := play openThenClosed in
  let s' := processFrame defaultProps (face 0.5 0.5 0) 2180 s in
  blinkCount (state s') = 1%nat /\ 250 <= 2180 - lastBlinkAtRef (refs s).
Proof.
  cbv zeta.
  destruct (blink_count_step (G:=sampleGeometry) defaultProps firstRender
              (face 0.5 0.5 0) 2180 (play openThenClosed) eq_refl)
    as [(Hc & _) | (_ & _ & Hr & _)].
  - vm_compute in Hc. discriminate Hc.
  - split; [vm_compute; reflexivity | exact Hr].
Defined.

Lemma turn_timer_transitions_witness :
  let s := play (twoBlinks ++ [(face 0.25 0.25 1, 3300); (face 0.25 0.25 1, 3350)]) in
  yawBeyondSinceRef (refs (processFrame defaultProps (face 0.25 0.25 1) 3400 s))
  = Some 3400.
Proof.
  cbv zeta.
  destruct (turn_timer_transitions (G:=sampleGeometry) defaultProps
              firstRender
              (mkSample (Some 0.25) (Some 0.25) (Some 1)) 0.25 0.25 1 3400
              (play (twoBlinks ++ [(face 0.25 0.25 1, 3300); (face 0.25 0.25 1, 3350)]))
              eq_refl eq_refl eq_refl) as (_ & Hstart & _).
  exact (f_equal beyondSinceTimestamp (Hstart ltac:(Qdecide) eq_refl)).
Defined.

Lemma turn_timer_zero_restarts_witness :
  let s' := processFrame defaultProps (face 0.25 0.25 1) 300 (play turnAtOrigin) in
  yawBeyondSinceRef (refs (play turnAtOrigin)) = Some 0 /\
  yawBeyondSinceRef (refs s') = Some 300 /\
  turnedRight (state s') = false.
Proof.
  cbv zeta. split; [reflexivity|].
  pose proof (turn_timer_zero_restarts (G:=sampleGeometry) defaultProps
                firstRender (mkSample (Some 0.25) (Some 0.25) (Some 1))
                0.25 0.25 1 300 0 (play turnAtOrigin)
                eq_refl eq_refl eq_refl ltac:(Qdecide) eq_refl ltac:(reflexivity)) as E.
  split.
  - exact (f_equal beyondSinceTimestamp E).
  - exact (f_equal turnedRightEver E).
Defined.

Lemma debug_values_rounded_witness :
  let s' := processFrame defaultProps (face 0.5 0.5 0) 2180 (play openThenClosed) in
  Qabs (leftEAR (state s') - smoothedLeft (play openThenClosed) 0.5) <= 1 # 2000.
Proof.
  cbv zeta.
  destruct (debug_values_rounded (G:=sampleGeometry) defaultProps
              firstRender (mkSample (Some 0.5) (Some 0.5) (Some 0))
              0.5 0.5 0 2180 (play openThenClosed) eq_refl eq_refl eq_refl)
    as (_ & Hl & _).
  exact Hl.
Defined.

Lemma earlier_turn_overwritten_witness :
  let s := earlierPlay (turnRight ++ swingLeft) in
  let s' := Earlier.processFrame defaultProps (face 0.25 0.25 (-3)) 4150 s in
  turnDetected (state s) = Some Right /\ turnDetected (state s') = Some Left.
Proof.
  cbv zeta. split; [reflexivity|].
  destruct (earlier_turn_overwritten (G:=sampleGeometry) defaultProps
              (mkSample (Some 0.25) (Some 0.25) (Some (-3))) 0.25 0.25 (-3) 4150 3850
              (earlierPlay (turnRight ++ swingLeft))
              eq_refl eq_refl eq_refl eq_refl) as (_ & Hleft & _);
    [ Qdecide | Qdecide | Qdecide | ].
  apply Hleft. Qdecide.
Defined.

Lemma earlier_blink_exit_witness :
  blinkCount
    (state (Earlier.processFrame defaultProps (face 0.5 0.5 0) 2180
              (earlierPlay openThenClosed))) = 1%nat.
Proof.
  destruct (earlier_blink_exit (G:=sampleGeometry) defaultProps
              firstRender
              (mkSample (Some 0.5) (Some 0.5) (Some 0)) 0.5 0.5 2180 2000
              (earlierPlay openThenClosed) eq_refl eq_refl eq_refl eq_refl
              ltac:(Qdecide)) as (_ & _ & Hc & _).
  etransitivity; [apply Hc; Qdecide | vm_compute; reflexivity].
Defined.

Lemma settled_load_is_final_witness :
  let later :=
    Loader.runActions [Loader.Load "camera_utils.js"; Loader.ScriptLoaded 0;
                       Loader.Load "face_mesh.js"] timedOutPage in
  Loader.loadScriptOnce "face_mesh.js" later = (0%nat, later) /\
  Loader.outcome 0 (Loader.settled later) = Some (Loader.Rejected Loader.TimedOut) /\
  Loader.scriptsFor "face_mesh.js" later = 0%nat.
Proof.
  cbv zeta.
  destruct (settled_load_is_final "face_mesh.js" timedOutPage 0
              (Loader.Rejected Loader.TimedOut)
              [Loader.Load "camera_utils.js"; Loader.ScriptLoaded 0;
               Loader.Load "face_mesh.js"] eq_refl eq_refl) as [Hl Ho].
  split; [exact Hl|]. split; [|vm_compute; reflexivity].
  rewrite Hl in Ho. exact Ho.
Defined.

Lemma face_loss_no_credit_witness :
  let lost := processFrame defaultProps None 2100 (play openThenClosed) in
  let next := processFrame defaultProps (face 0.5 0.5 0) 2300 lost in
  blinkCount (state next) = 0%nat.
Proof.
  cbv zeta.
  destruct (face_loss_no_credit (G:=sampleGeometry) defaultProps
              firstRender firstRender
              (face 0.5 0.5 0) 2100 2300 (play openThenClosed)) as (Hc & _).
  - Qdecide.
  - etransitivity; [exact Hc | vm_compute; reflexivity].
Defined.
